(** * The MySQL server resource and the Relay identity parsers

    A shallow embedding of
      - azurerm/internal/services/mysql/resource_arm_mysql_server.go
      - azurerm/internal/services/relay/relay.go
    together with the properties their specification states about them.

    Go values are modelled as follows: a Go [int] is a [Z] (64-bit on the
    platforms the provider is built for), an [int32] is a [Z] obtained
    through [int32], a [string] is a Rocq [string] (a byte sequence), a
    pointer is an [option], a [map[string]T] is a [gmap string T], and a
    run-time panic is the [Panic] result. *)

From Stdlib Require Import ZArith Ascii String List Lia Bool.
From stdpp Require Import base option gmap strings list fin_maps.

Local Open Scope Z_scope.
Local Open Scope string_scope.

(** ** Go primitives *)

Module Go.

(** The result of an expression that may panic. *)
Inductive res (A : Type) : Type :=
| Ok (a : A)
| Panic.
Arguments Ok {A} a.
Arguments Panic {A}.

Definition res_bind {A B} (r : res A) (k : A → res B) : res B :=
  match r with
  | Ok a => k a
  | Panic => Panic
  end.

Notation "x ←! r ; k" := (res_bind r (fun x => k))
  (at level 20, r at level 100, k at level 200, right associativity,
   format "x  ←!  r ;  '/' k").

(** [int32(x)]: conversion of an [int] to a signed 32-bit integer keeps the
    low 32 bits. *)
Definition int32 (x : Z) : Z := (x + 2 ^ 31) mod 2 ^ 32 - 2 ^ 31.

Definition in_int32 (x : Z) : Prop := - 2 ^ 31 <= x < 2 ^ 31.

(** [strings.Split(s, sep)] for a separator of one byte, which is how the
    source calls it: the substrings between the separators, in order. The
    result always has one element more than there are separators in [s]. *)
Fixpoint Split (s : string) (sep : ascii) : list string :=
  match s with
  | EmptyString => [EmptyString]
  | String a s' =>
      if Ascii.eqb a sep then EmptyString :: Split s' sep
      else match Split s' sep with
           | p :: ps => String a p :: ps
           | [] => [String a EmptyString]
           end
  end.

(** [strings.HasPrefix]. *)
Definition HasPrefix (s p : string) : bool := String.prefix p s.

(** [strings.ToLower] on ASCII letters. *)
Definition lower_byte (a : ascii) : ascii :=
  let n := nat_of_ascii a in
  if ((65 <=? n)%nat && (n <=? 90)%nat)%bool then ascii_of_nat (n + 32) else a.

Fixpoint ToLower (s : string) : string :=
  match s with
  | EmptyString => EmptyString
  | String a s' => String (lower_byte a) (ToLower s')
  end.

(** [strconv.Atoi]: an optional sign followed by one or more decimal
    digits, whose value fits in an [int]; anything else is an error,
    modelled as [None] since the source discards the cause. *)
Definition digit (a : ascii) : option Z :=
  let n := nat_of_ascii a in
  if ((48 <=? n)%nat && (n <=? 57)%nat)%bool then Some (Z.of_nat n - 48) else None.

Fixpoint digits (s : string) (acc : Z) : option Z :=
  match s with
  | EmptyString => Some acc
  | String a s' =>
      match digit a with
      | Some v => digits s' (10 * acc + v)
      | None => None
      end
  end.

Definition Atoi (s : string) : option Z :=
  match s with
  | EmptyString => None
  | String a rest =>
      let neg := Ascii.eqb a "-" in
      let body := if (neg || Ascii.eqb a "+")%bool then rest else s in
      match body with
      | EmptyString => None
      | _ =>
          match digits body 0 with
          | None => None
          | Some u =>
              let v := if neg then - u else u in
              if (Z.leb (- 2 ^ 63) v && Z.ltb v (2 ^ 63))%bool then Some v else None
          end
      end
  end.

(** A dynamically typed value, as stored in a [map[string]interface{}]. *)
Inductive value : Type :=
| VInt (z : Z)
| VInt32 (z : Z)
| VString (s : string)
| VBool (b : bool).

(** Type assertions [v.(int)] and [v.(string)] on the result of indexing a
    map: a missing key yields the nil interface, on which the assertion
    panics, as it does on a value of another dynamic type. *)
Definition assert_int (v : option value) : res Z :=
  match v with
  | Some (VInt z) => Ok z
  | _ => Panic
  end.

Definition assert_string (v : option value) : res string :=
  match v with
  | Some (VString s) => Ok s
  | _ => Panic
  end.

End Go.
Export Go.

(** ** Errors

    Every [fmt.Errorf] site of the two files has its own constructor, with
    the values its message is formatted from; errors produced by the
    collaborators (the API client, the identifier parser) are opaque. *)

Inductive error : Type :=
| RemoteFailure (detail : string)
| ParseFailure (detail : string)
| ErrSkuParts (skuName : string) (parts : nat)
| ErrSkuTier (skuName part : string)
| ErrSkuCapacity (skuName part : string)
| ErrCheckingPresence (name resourceGroup : string) (cause : error)
| ImportAsExistsError (resourceName id : string)
| ErrExpandingSku (name resourceGroup : string) (cause : error)
| ErrCreating (name resourceGroup : string) (cause : error)
| ErrWaitingCreation (name resourceGroup : string) (cause : error)
| ErrRetrieving (name resourceGroup : string) (cause : error)
| ErrCannotReadID (name resourceGroup : string)
| ErrReadRequest (name resourceGroup : string) (cause : error)
| ErrSettingStorageProfile (cause : error)
| ErrDeleting (name resourceGroup : string) (cause : error)
| ErrWaitingDeletion (name resourceGroup : string) (cause : error)
| ErrBasicTierStorage
| ErrUnableToParseHybridConnection (input : string) (cause : error)
| ErrUnableToParseNamespace (input : string) (cause : error)
| ErrMissingElement (name : string)
| ErrMoreSegments (sourceId : string).

(** ** The API types of the MySQL management SDK

    The SDK's structs, with the fields the resource touches. [Server]
    embeds a pointer to its [ServerProperties], so that a field promoted
    from the properties is read through that pointer. *)

Module mysql.

Definition SkuTier := string.
Definition Basic : SkuTier := "Basic".
Definition GeneralPurpose : SkuTier := "GeneralPurpose".
Definition MemoryOptimized : SkuTier := "MemoryOptimized".

Definition PublicNetworkAccessEnumDisabled : string := "Disabled".
Definition PublicNetworkAccessEnumEnabled : string := "Enabled".
Definition StorageAutogrowDisabled : string := "Disabled".
Definition StorageAutogrowEnabled : string := "Enabled".
Definition SslEnforcementEnumDisabled : string := "Disabled".
Definition SslEnforcementEnumEnabled : string := "Enabled".
Definition FiveFullStopSix : string := "5.6".
Definition FiveFullStopSeven : string := "5.7".
Definition EightFullStopZero : string := "8.0".

Record Sku : Type := {
  Sku_Name : option string;
  Sku_Tier : SkuTier;
  Sku_Capacity : option Z;
  Sku_Family : option string
}.

Record StorageProfile : Type := {
  BackupRetentionDays : option Z;
  GeoRedundantBackup : string;
  StorageMB : option Z;
  StorageAutogrow : string
}.

Record ServerProperties : Type := {
  AdministratorLogin : option string;
  Version : string;
  SslEnforcement : string;
  FullyQualifiedDomainName : option string;
  Properties_StorageProfile : option StorageProfile;
  PublicNetworkAccess : string
}.

(** [Response] is the embedded [autorest.Response]: the HTTP status code,
    or [None] when no HTTP response was received. *)
Record Server : Type := {
  Response : option Z;
  Server_Sku : option Sku;
  Server_Properties : option ServerProperties;
  Server_Tags : gmap string string;
  Location : option string;
  ID : option string;
  Name : option string
}.

Record ServerPropertiesForDefaultCreate : Type := {
  Create_AdministratorLogin : option string;
  Create_AdministratorLoginPassword : option string;
  Create_Version : string;
  Create_SslEnforcement : string;
  Create_StorageProfile : option StorageProfile;
  Create_CreateMode : string;
  Create_PublicNetworkAccess : string
}.

Record ServerForCreate : Type := {
  ForCreate_Location : option string;
  ForCreate_Properties : option ServerPropertiesForDefaultCreate;
  ForCreate_Sku : option Sku;
  ForCreate_Tags : gmap string string
}.

End mysql.
Export mysql.

(** ** The attribute store of the plugin SDK

    [schema.ResourceData] is a store of attributes by name, read and
    written through the resource's schema, plus the resource ID. The schema
    fixes the dynamic type under every key, so [d.Get(k).(string)] is
    modelled by one typed accessor, which yields the zero value for an
    attribute that is not set. The elements of a list attribute are Go
    maps, and are kept as such. *)

Module schema.

Inductive attr : Type :=
| AString (s : string)
| ABool (b : bool)
| AList (l : list (gmap string value))
| AMap (m : gmap string string).

Record ResourceData : Type := {
  Id : string;
  IsNewResource : bool;
  attrs : gmap string attr
}.

Definition GetString (a : gmap string attr) (k : string) : string :=
  match a !! k with
  | Some (AString s) => s
  | _ => EmptyString
  end.

Definition GetBool (a : gmap string attr) (k : string) : bool :=
  match a !! k with
  | Some (ABool b) => b
  | _ => false
  end.

Definition GetList (a : gmap string attr) (k : string) : list (gmap string value) :=
  match a !! k with
  | Some (AList l) => l
  | _ => []
  end.

Definition GetMap (a : gmap string attr) (k : string) : gmap string string :=
  match a !! k with
  | Some (AMap m) => m
  | _ => ∅
  end.

(** [d.Get("<list>.<i>.<key>").(int)] on an integer attribute of a list
    element: the zero value when the address does not exist. *)
Definition GetNestedInt (a : gmap string attr) (k : string) (i : nat) (sub : string) : Z :=
  match GetList a k !! i with
  | Some m => match m !! sub with
              | Some (VInt z) => z
              | _ => 0
              end
  | None => 0
  end.

Definition SetId (d : ResourceData) (id : string) : ResourceData :=
  {| Id := id; IsNewResource := IsNewResource d; attrs := attrs d |}.

Definition Set_ (d : ResourceData) (k : string) (v : attr) : ResourceData :=
  {| Id := Id d; IsNewResource := IsNewResource d; attrs := <[k := v]> (attrs d) |}.

(** [d.Set(k, p)] for a [*string]: a nil pointer leaves the attribute
    without a value. *)
Definition SetStringPtr (d : ResourceData) (k : string) (p : option string) : ResourceData :=
  match p with
  | Some s => Set_ d k (AString s)
  | None =>
      {| Id := Id d; IsNewResource := IsNewResource d; attrs := delete k (attrs d) |}
  end.

(** Writing a list element through the schema stores its integers with the
    schema's type, [int]. *)
Definition as_schema_int (v : value) : value :=
  match v with
  | VInt32 z => VInt z
  | _ => v
  end.

Definition SetList (d : ResourceData) (k : string) (l : list (gmap string value)) : ResourceData :=
  Set_ d k (AList (List.map (fun m : gmap string value => as_schema_int <$> m) l)).

(** The validation helpers the schema of the resource uses. *)
Definition StringInSlice (valid : list string) (ignoreCase : bool) (v : string) : bool :=
  existsb (fun str => String.eqb v str
                      || (ignoreCase && String.eqb (ToLower v) (ToLower str)))%bool valid.

Definition IntBetween (lo hi : Z) (v : Z) : bool := Z.leb lo v && Z.leb v hi.

Definition IntDivisibleBy (divisor : Z) (v : Z) : bool := Z.eqb (Z.rem v divisor) 0.

End schema.
Export schema.

(** ** Parsed resource identifiers (azurerm/helpers/azure) *)

Module azure.

(** The parsed form of a resource ID: the scoping fields, and the remaining
    named segments as a map from segment type to segment name (the source
    indexes it as [id.Path["servers"]]). *)
Record ResourceID : Type := {
  SubscriptionID : string;
  ResourceGroup : string;
  Provider : string;
  Path : gmap string string
}.

Definition with_Path (id : ResourceID) (p : gmap string string) : ResourceID :=
  {| SubscriptionID := SubscriptionID id; ResourceGroup := ResourceGroup id;
     Provider := Provider id; Path := p |}.

(** Modelled from the spec: [PopSegment] is a method of [azure.ResourceID],
    declared outside the files embedded here. "Each named segment type is
    looked up and removed (popped) from the remaining path exactly once;
    requesting a segment type not present is a parse error." The method
    mutates the identifier it is called on, so the model returns the
    identifier that remains. *)
Definition PopSegment (id : ResourceID) (name : string)
  : string * option error * ResourceID :=
  match Path id !! name with
  | None => (EmptyString, Some (ErrMissingElement name), id)
  | Some val => (val, None, with_Path id (delete name (Path id)))
  end.

(** Modelled from the spec: [ValidateNoEmptySegments] is a method of
    [azure.ResourceID] as well. "After all expected segments are popped,
    the remainder must be empty; a non-empty remainder (unexpected path
    component) is a validation error, surfaced distinctly from a missing
    segment." *)
Definition ValidateNoEmptySegments (id : ResourceID) (sourceId : string)
  : option error :=
  if bool_decide (Path id = ∅) then None else Some (ErrMoreSegments sourceId).

End azure.
Export azure.

(** Modelled from the spec: [utils.ResponseWasNotFound] is declared outside
    the files embedded here; "the remote reports not-found" is an HTTP
    response with status 404. *)
Definition ResponseWasNotFound (resp : option Z) : bool :=
  match resp with
  | Some code => Z.eqb code 404
  | None => false
  end.

(** ** The pure functions of the MySQL server resource *)

(** [expandServerSkuName], returning the pair (pointer, error) the source
    returns. *)
Definition expandServerSkuName (skuName : string) : option Sku * option error :=
  let parts := Split skuName "_" in
  match parts with
  | [p0; p1; p2] =>
      let tier :=
        if String.eqb p0 "B" then Some Basic
        else if String.eqb p0 "GP" then Some GeneralPurpose
        else if String.eqb p0 "MO" then Some MemoryOptimized
        else None in
      match tier with
      | None => (None, Some (ErrSkuTier skuName p0))
      | Some tier =>
          match Atoi p2 with
          | None => (None, Some (ErrSkuCapacity skuName p2))
          | Some capacity =>
              (Some {| Sku_Name := Some skuName;
                       Sku_Tier := tier;
                       Sku_Capacity := Some (int32 capacity);
                       Sku_Family := Some p1 |}, None)
          end
      end
  | _ => (None, Some (ErrSkuParts skuName (length parts)))
  end.

(** [storageprofiles[0]]: indexing an empty slice panics. *)
Definition index0 {A} (l : list A) : res A :=
  match l with
  | x :: _ => Ok x
  | [] => Panic
  end.

Definition expandMySQLStorageProfile (d : gmap string attr) : res StorageProfile :=
  let storageprofiles := GetList d "storage_profile" in
  storageprofile ←! index0 storageprofiles;
  backupRetentionDays ←! assert_int (storageprofile !! "backup_retention_days");
  geoRedundantBackup ←! assert_string (storageprofile !! "geo_redundant_backup");
  storageMB ←! assert_int (storageprofile !! "storage_mb");
  autoGrow ←! assert_string (storageprofile !! "auto_grow");
  Ok {| BackupRetentionDays := Some (int32 backupRetentionDays);
        GeoRedundantBackup := geoRedundantBackup;
        StorageMB := Some (int32 storageMB);
        StorageAutogrow := autoGrow |}.

(** [flattenMySQLStorageProfile]: the argument is a pointer, and reading a
    field through a nil pointer panics. *)
Definition flattenMySQLStorageProfile (resp : option StorageProfile)
  : res (list (gmap string value)) :=
  match resp with
  | None => Panic
  | Some resp =>
      let values : gmap string value := ∅ in
      let values :=
        match StorageMB resp with
        | Some storageMB => <["storage_mb" := VInt32 storageMB]> values
        | None => values
        end in
      let values :=
        match BackupRetentionDays resp with
        | Some backupRetentionDays =>
            <["backup_retention_days" := VInt32 backupRetentionDays]> values
        | None => values
        end in
      let values := <["geo_redundant_backup" := VString (GeoRedundantBackup resp)]> values in
      let values := <["auto_grow" := VString (StorageAutogrow resp)]> values in
      Ok [values]
  end.

(** [CustomizeDiff] of the resource: it reads the proposed attributes and
    nothing else. *)
Definition CustomizeDiff (diff : gmap string attr) : option error :=
  let tier := GetString diff "sku_name" in
  let storageMB := GetNestedInt diff "storage_profile" 0 "storage_mb" in
  if (HasPrefix tier "B_" && Z.ltb 1048576 storageMB)%bool
  then Some ErrBasicTierStorage
  else None.

(** The [ValidateFunc]s the schema attaches to the attributes. The plugin
    SDK runs them on the attributes that are set; an optional attribute
    that is not set reads as its zero value (or its default). *)
Definition sku_names : list string :=
  [ "B_Gen4_1"; "B_Gen4_2"; "B_Gen5_1"; "B_Gen5_2";
    "GP_Gen4_2"; "GP_Gen4_4"; "GP_Gen4_8"; "GP_Gen4_16"; "GP_Gen4_32";
    "GP_Gen5_2"; "GP_Gen5_4"; "GP_Gen5_8"; "GP_Gen5_16"; "GP_Gen5_32"; "GP_Gen5_64";
    "MO_Gen5_2"; "MO_Gen5_4"; "MO_Gen5_8"; "MO_Gen5_16"; "MO_Gen5_32" ].

Definition validate_storage_mb (v : option value) : bool :=
  match v with
  | Some (VInt z) => IntBetween 5120 4194304 z && IntDivisibleBy 1024 z
  | _ => false
  end.

Definition validate_backup_retention_days (v : option value) : bool :=
  match v with
  | Some (VInt z) => Z.eqb z 0 || IntBetween 7 35 z
  | _ => false
  end.

Definition validate_geo_redundant_backup (v : option value) : bool :=
  match v with
  | Some (VString s) => String.eqb s EmptyString || StringInSlice ["Enabled"; "Disabled"] true s
  | _ => false
  end.

Definition validate_auto_grow (v : option value) : bool :=
  match v with
  | Some (VString s) =>
      StringInSlice [StorageAutogrowEnabled; StorageAutogrowDisabled] false s
  | _ => false
  end.

(** [storage_profile] is a required list of at most one item. *)
Definition validate_storage_profile (l : list (gmap string value)) : bool :=
  match l with
  | [m] =>
      validate_storage_mb (m !! "storage_mb")
      && validate_backup_retention_days (m !! "backup_retention_days")
      && validate_geo_redundant_backup (m !! "geo_redundant_backup")
      && validate_auto_grow (m !! "auto_grow")
  | _ => false
  end.

Definition validate_schema (d : gmap string attr) : bool :=
  StringInSlice sku_names false (GetString d "sku_name")
  && StringInSlice [FiveFullStopSix; FiveFullStopSeven; EightFullStopZero] true
       (GetString d "version")
  && StringInSlice [SslEnforcementEnumDisabled; SslEnforcementEnumEnabled] true
       (GetString d "ssl_enforcement")
  && validate_storage_profile (GetList d "storage_profile").

(** The validation a configuration passes before it is encoded: the
    attribute-level checks of the schema, then the cross-field check. *)
Definition Validator (d : gmap string attr) : bool :=
  validate_schema d && bool_decide (CustomizeDiff d = None).

(** ** The remote API and the lifecycle monad

    The API client is a collaborator. Its answers are those of a
    deterministic remote: a function of the calls submitted so far and of
    the arguments of the call. The calls are recorded, so that "no create
    was submitted" is a statement about the record. *)

Inductive Call : Type :=
| CallGet (resourceGroup name : string)
| CallCreate (resourceGroup name : string) (properties : ServerForCreate)
| CallDelete (resourceGroup name : string).

(** The handle of a long-running operation: the HTTP status of the response
    to the submission ([None] when there was no response), and what polling
    the operation to its end with [WaitForCompletionRef] returns. *)
Record Future : Type := {
  FutureResponse : option Z;
  WaitForCompletionRef : option error
}.

Record ServersClient : Type := {
  Get : list Call → string → string → Server * option error;
  Create : list Call → string → string → ServerForCreate → Future * option error;
  Delete : list Call → string → string → Future * option error
}.

(** The state a lifecycle function works on: the attribute store it was
    handed and the calls submitted to the remote. *)
Record World : Type := {
  data : ResourceData;
  calls : list Call
}.

(** How a statement ends: it goes on with a value, the function returns
    (an error, or nil), or the goroutine panics. *)
Inductive step (A : Type) : Type :=
| Next (a : A)
| Return (err : option error)
| Panics.
Arguments Next {A} a.
Arguments Return {A} err.
Arguments Panics {A}.

Definition M (A : Type) : Type := World → step A * World.

Definition pure {A} (a : A) : M A := fun w => (Next a, w).

Definition bind {A B} (m : M A) (k : A → M B) : M B :=
  fun w =>
    match m w with
    | (Next a, w') => k a w'
    | (Return e, w') => (Return e, w')
    | (Panics, w') => (Panics, w')
    end.

Definition return_ {A} (err : option error) : M A := fun w => (Return err, w).

Notation "x <- m ;; k" := (bind m (fun x => k))
  (at level 20, m at level 99, k at level 200, right associativity).
Notation "' pat <- m ;; k" := (bind m (fun x => match x with pat => k end))
  (at level 20, pat pattern, m at level 99, k at level 200, right associativity).
Notation "m ;; k" := (bind m (fun _ => k))
  (at level 100, k at level 200, right associativity).

Definition lift {A} (r : res A) : M A :=
  fun w => match r with
           | Ok a => (Next a, w)
           | Panic => (Panics, w)
           end.

(** Dereferencing a pointer. *)
Definition deref {A} (p : option A) : M A :=
  fun w => match p with
           | Some a => (Next a, w)
           | None => (Panics, w)
           end.

Definition skip : M unit := pure tt.

Definition d_attrs : M (gmap string attr) := fun w => (Next (attrs (data w)), w).
Definition d_Id : M string := fun w => (Next (Id (data w)), w).
Definition d_IsNewResource : M bool := fun w => (Next (IsNewResource (data w)), w).

Definition d_update (f : ResourceData → ResourceData) : M unit :=
  fun w => (Next tt, {| data := f (data w); calls := calls w |}).

Definition d_SetId (id : string) : M unit := d_update (fun d => SetId d id).
Definition d_Set (k : string) (v : attr) : M unit := d_update (fun d => Set_ d k v).
Definition d_SetStringPtr (k : string) (p : option string) : M unit :=
  d_update (fun d => SetStringPtr d k p).

(** [d.Set] of the flattened list, whose error the source checks. A list
    of maps under the keys of the schema is always accepted. *)
Definition d_SetList (k : string) (l : list (gmap string value)) : M (option error) :=
  d_update (fun d => SetList d k l) ;; pure None.

Definition client_Get (client : ServersClient) (resourceGroup name : string)
  : M (Server * option error) :=
  fun w => (Next (Get client (calls w) resourceGroup name),
            {| data := data w; calls := calls w ++ [CallGet resourceGroup name] |}).

Definition client_Create (client : ServersClient) (resourceGroup name : string)
    (properties : ServerForCreate) : M (Future * option error) :=
  fun w => (Next (Create client (calls w) resourceGroup name properties),
            {| data := data w;
               calls := calls w ++ [CallCreate resourceGroup name properties] |}).

Definition client_Delete (client : ServersClient) (resourceGroup name : string)
  : M (Future * option error) :=
  fun w => (Next (Delete client (calls w) resourceGroup name),
            {| data := data w; calls := calls w ++ [CallDelete resourceGroup name] |}).

(** What a lifecycle function did: the error it returned (nil on success)
    or a panic, and the world it left. *)
Inductive outcome : Type :=
| Returned (err : option error)
| Panicked.

Definition run (m : M Empty_set) (d : ResourceData) (log : list Call)
  : outcome * ResourceData * list Call :=
  match m {| data := d; calls := log |} with
  | (Next a, _) => match a with end
  | (Return e, w) => (Returned e, data w, calls w)
  | (Panics, w) => (Panicked, data w, calls w)
  end.

(** ** The lifecycle functions of the MySQL server resource *)

Section Lifecycle.

(** The helpers of the provider that the two files call and that are
    declared elsewhere: the parser of resource IDs, which returns an
    identifier or an error of its own (with its message), the normalisation
    of a location name, and the feature toggle of the import check. *)
Variable ParseAzureResourceID : string → ResourceID + string.
Variable NormalizeLocation : string → string.
Variable ShouldResourcesBeImported : bool.

(** The tags helpers of the provider carry the tag map through unchanged:
    [tags.Expand] towards the API and [tags.FlattenAndSet] back into the
    store, after which the function returns nil. *)
Definition tags_Expand (m : gmap string string) : gmap string string := m.

Definition tags_FlattenAndSet {A} (m : gmap string string) : M A :=
  d_Set "tags" (AMap m) ;; return_ None.

Definition resourceArmMySqlServerRead (client : ServersClient) : M Empty_set :=
  cur <- d_Id ;;
  match ParseAzureResourceID cur with
  | inr err => return_ (Some (ParseFailure err))
  | inl id =>
      let resourceGroup := ResourceGroup id in
      let name := default EmptyString (Path id !! "servers") in
      '(resp, err) <- client_Get client resourceGroup name ;;
      match err with
      | Some err =>
          if ResponseWasNotFound (Response resp)
          then d_SetId EmptyString ;; return_ None
          else return_ (Some (ErrReadRequest name resourceGroup err))
      | None =>
          d_SetStringPtr "name" (Name resp) ;;
          d_Set "resource_group_name" (AString resourceGroup) ;;
          match Location resp with
          | Some location => d_Set "location" (AString (NormalizeLocation location))
          | None => skip
          end ;;
          match Server_Sku resp with
          | Some sku => d_SetStringPtr "sku_name" (Sku_Name sku)
          | None => skip
          end ;;
          props <- deref (Server_Properties resp) ;;
          d_SetStringPtr "administrator_login" (AdministratorLogin props) ;;
          d_Set "version" (AString (Version props)) ;;
          d_Set "ssl_enforcement" (AString (SslEnforcement props)) ;;
          d_Set "public_network_access_enabled"
            (ABool (negb (String.eqb (PublicNetworkAccess props)
                                     PublicNetworkAccessEnumDisabled))) ;;
          flat <- lift (flattenMySQLStorageProfile (Properties_StorageProfile props)) ;;
          err <- d_SetList "storage_profile" flat ;;
          match err with
          | Some err => return_ (Some (ErrSettingStorageProfile err))
          | None =>
              d_SetStringPtr "fqdn" (FullyQualifiedDomainName props) ;;
              tags_FlattenAndSet (Server_Tags resp)
          end
      end
  end.

(** The payload [resourceArmMySqlServerCreate] builds from the store. *)
Definition create_properties (location : string) (publicAccess : string)
    (sku : option Sku) : M ServerForCreate :=
  d <- d_attrs ;;
  storageProfile <- lift (expandMySQLStorageProfile d) ;;
  pure {| ForCreate_Location := Some location;
          ForCreate_Properties := Some
            {| Create_AdministratorLogin := Some (GetString d "administrator_login");
               Create_AdministratorLoginPassword :=
                 Some (GetString d "administrator_login_password");
               Create_Version := GetString d "version";
               Create_SslEnforcement := GetString d "ssl_enforcement";
               Create_StorageProfile := Some storageProfile;
               Create_CreateMode := "Default";
               Create_PublicNetworkAccess := publicAccess |};
          ForCreate_Sku := sku;
          ForCreate_Tags := tags_Expand (GetMap d "tags") |}.

Definition import_check (client : ServersClient) (resourceGroup name : string)
  : M unit :=
  '(existing, err) <- client_Get client resourceGroup name ;;
  match err with
  | Some err =>
      if negb (ResponseWasNotFound (Response existing))
      then return_ (Some (ErrCheckingPresence name resourceGroup err))
      else skip
  | None => skip
  end ;;
  match ID existing with
  | Some id =>
      if negb (String.eqb id EmptyString)
      then return_ (Some (ImportAsExistsError "azurerm_mysql_server" id))
      else skip
  | None => skip
  end.

Definition resourceArmMySqlServerCreate (client : ServersClient) : M Empty_set :=
  d <- d_attrs ;;
  let name := GetString d "name" in
  let location := NormalizeLocation (GetString d "location") in
  let resourceGroup := GetString d "resource_group_name" in
  let publicAccess :=
    if negb (GetBool d "public_network_access_enabled")
    then PublicNetworkAccessEnumDisabled
    else PublicNetworkAccessEnumEnabled in
  isNew <- d_IsNewResource ;;
  (if (ShouldResourcesBeImported && isNew)%bool
   then import_check client resourceGroup name
   else skip) ;;
  d <- d_attrs ;;
  match expandServerSkuName (GetString d "sku_name") with
  | (_, Some err) => return_ (Some (ErrExpandingSku name resourceGroup err))
  | (sku, None) =>
      properties <- create_properties location publicAccess sku ;;
      '(future, err) <- client_Create client resourceGroup name properties ;;
      match err with
      | Some err => return_ (Some (ErrCreating name resourceGroup err))
      | None =>
          match WaitForCompletionRef future with
          | Some err => return_ (Some (ErrWaitingCreation name resourceGroup err))
          | None =>
              '(read, err) <- client_Get client resourceGroup name ;;
              match err with
              | Some err => return_ (Some (ErrRetrieving name resourceGroup err))
              | None =>
                  match ID read with
                  | None => return_ (Some (ErrCannotReadID name resourceGroup))
                  | Some id =>
                      d_SetId id ;;
                      resourceArmMySqlServerRead client
                  end
              end
          end
      end
  end.

Definition resourceArmMySqlServerDelete (client : ServersClient) : M Empty_set :=
  cur <- d_Id ;;
  match ParseAzureResourceID cur with
  | inr err => return_ (Some (ParseFailure err))
  | inl id =>
      let resourceGroup := ResourceGroup id in
      let name := default EmptyString (Path id !! "servers") in
      '(future, err) <- client_Delete client resourceGroup name ;;
      match err with
      | Some err => return_ (Some (ErrDeleting name resourceGroup err))
      | None =>
          match WaitForCompletionRef future with
          | Some err => return_ (Some (ErrWaitingDeletion name resourceGroup err))
          | None => return_ None
          end
      end
  end.

(** ** The identity parsers of the Relay service *)

Record HybridConnectionResourceID : Type := {
  HC_ResourceGroup : string;
  HC_Name : string;
  HC_NamespaceName : string
}.

Record NamespaceResourceID : Type := {
  NS_ResourceGroup : string;
  NS_Name : string
}.

Definition ParseHybridConnectionID (input : string)
  : option HybridConnectionResourceID * option error :=
  match ParseAzureResourceID input with
  | inr err => (None, Some (ErrUnableToParseHybridConnection input (ParseFailure err)))
  | inl id =>
      let resourceGroup := ResourceGroup id in
      match PopSegment id "hybridConnections" with
      | (_, Some err, _) => (None, Some err)
      | (name, None, id) =>
          match PopSegment id "namespaces" with
          | (_, Some err, _) => (None, Some err)
          | (namespaceName, None, id) =>
              match ValidateNoEmptySegments id input with
              | Some err => (None, Some err)
              | None =>
                  (Some {| HC_ResourceGroup := resourceGroup;
                           HC_Name := name;
                           HC_NamespaceName := namespaceName |}, None)
              end
          end
      end
  end.

Definition ParseNamespaceID (input : string)
  : option NamespaceResourceID * option error :=
  match ParseAzureResourceID input with
  | inr err => (None, Some (ErrUnableToParseNamespace input (ParseFailure err)))
  | inl id =>
      let resourceGroup := ResourceGroup id in
      match PopSegment id "namespaces" with
      | (_, Some err, _) => (None, Some err)
      | (name, None, id) =>
          match ValidateNoEmptySegments id input with
          | Some err => (None, Some err)
          | None =>
              (Some {| NS_ResourceGroup := resourceGroup; NS_Name := name |}, None)
          end
      end
  end.

End Lifecycle.

(** ** A sample remote and sample configurations

    Concrete collaborators on which the lifecycle functions can be run:
    a parser of resource IDs, a remote that holds the server once a create
    was submitted, a remote that fails every call, and a configuration. *)

Module Sample.

Definition server_id : string :=
  "/subscriptions/0000/resourceGroups/rg1/providers/Microsoft.DBforMySQL/servers/db1".

Definition hybrid_connection_id : string :=
  "/subscriptions/0000/resourceGroups/rg1/providers/Microsoft.Relay/namespaces/ns1/hybridConnections/hc1".

(** The components of a path, two by two; a key or a value may not be
    empty. *)
Fixpoint pairs (l : list string) : option (list (string * string)) :=
  match l with
  | [] => Some []
  | [_] => None
  | k :: v :: rest =>
      if (String.eqb k EmptyString || String.eqb v EmptyString)%bool then None
      else cons (k, v) <$> pairs rest
  end.

(** The first [subscriptions] pair is the subscription, the other pairs
    fill the map of segments. *)
Fixpoint collect (ps : list (string * string)) (sub : string)
    (m : gmap string string) : string * gmap string string :=
  match ps with
  | [] => (sub, m)
  | (k, v) :: rest =>
      if (String.eqb k "subscriptions" && String.eqb sub EmptyString)%bool
      then collect rest v m
      else collect rest sub (<[k := v]> m)
  end.

Definition finish (sub rg : string) (m : gmap string string) : ResourceID :=
  {| SubscriptionID := sub; ResourceGroup := rg;
     Provider := default EmptyString (m !! "providers");
     Path := delete "providers" m |}.

(** A parser of resource IDs of the form
    /subscriptions/<id>/resourceGroups/<group>/providers/<ns>/<type>/<name>... *)
Definition parse (s : string) : ResourceID + string :=
  match Split s "/" with
  | EmptyString :: components =>
      match pairs components with
      | None => inr "The path is not a sequence of non-empty key/value pairs"
      | Some ps =>
          let '(sub, m) := collect ps EmptyString ∅ in
          if String.eqb sub EmptyString then inr "No subscription ID found"
          else match m !! "resourceGroups" with
               | Some rg => inl (finish sub rg (delete "resourceGroups" m))
               | None =>
                   match m !! "resourcegroups" with
                   | Some rg => inl (finish sub rg (delete "resourcegroups" m))
                   | None => inr "No resource group name found"
                   end
               end
      end
  | _ => inr "Cannot parse Azure ID"
  end.

Fixpoint without_spaces (s : string) : string :=
  match s with
  | EmptyString => EmptyString
  | String a s' =>
      if Ascii.eqb a " " then without_spaces s' else String a (without_spaces s')
  end.

Definition normalize (s : string) : string := without_spaces (ToLower s).

Definition no_server (status : Z) : Server :=
  {| Response := Some status; Server_Sku := None; Server_Properties := None;
     Server_Tags := ∅; Location := None; ID := None; Name := None |}.

(** The server as the remote returns it. Its payload leaves
    [publicNetworkAccess] out, and carries the endpoint the remote
    generated. *)
Definition the_server : Server :=
  {| Response := Some 200;
     Server_Sku := Some {| Sku_Name := Some "GP_Gen5_4"; Sku_Tier := GeneralPurpose;
                           Sku_Capacity := Some 4; Sku_Family := Some "Gen5" |};
     Server_Properties := Some
       {| AdministratorLogin := Some "dbadmin";
          Version := "5.7";
          SslEnforcement := "Enabled";
          FullyQualifiedDomainName := Some "db1.mysql.database.azure.com";
          Properties_StorageProfile := Some
            {| BackupRetentionDays := Some 7; GeoRedundantBackup := "Disabled";
               StorageMB := Some 5120; StorageAutogrow := "Enabled" |};
          PublicNetworkAccess := EmptyString |};
     Server_Tags := ∅;
     Location := Some "West Europe";
     ID := Some server_id;
     Name := Some "db1" |}.

Definition is_create (c : Call) : bool :=
  match c with
  | CallCreate _ _ _ => true
  | _ => false
  end.

Definition accepted : Future := {| FutureResponse := Some 202; WaitForCompletionRef := None |}.

(** A remote on which the server exists once a create was submitted. *)
Definition remote : ServersClient :=
  {| Get := fun log _ _ =>
       if existsb is_create log then (the_server, None)
       else (no_server 404, Some (RemoteFailure "ResourceNotFound"));
     Create := fun _ _ _ _ => (accepted, None);
     Delete := fun log _ _ =>
       if existsb is_create log then (accepted, None)
       else ({| FutureResponse := Some 404; WaitForCompletionRef := None |},
             Some (RemoteFailure "ResourceNotFound")) |}.

(** A remote that answers every call with a server error. *)
Definition broken : ServersClient :=
  {| Get := fun _ _ _ => (no_server 500, Some (RemoteFailure "InternalServerError"));
     Create := fun _ _ _ _ =>
       ({| FutureResponse := Some 500; WaitForCompletionRef := None |},
        Some (RemoteFailure "InternalServerError"));
     Delete := fun _ _ _ =>
       ({| FutureResponse := Some 500; WaitForCompletionRef := None |},
        Some (RemoteFailure "InternalServerError")) |}.

(** A remote whose server has no storage profile in its payload. *)
Definition bare : ServersClient :=
  {| Get := fun _ _ _ =>
       ({| Response := Some 200; Server_Sku := None;
           Server_Properties := Some
             {| AdministratorLogin := None; Version := "5.7";
                SslEnforcement := "Enabled"; FullyQualifiedDomainName := None;
                Properties_StorageProfile := None; PublicNetworkAccess := EmptyString |};
           Server_Tags := ∅; Location := None; ID := Some server_id;
           Name := Some "db1" |}, None);
     Create := fun _ _ _ _ => (accepted, None);
     Delete := fun _ _ _ => (accepted, None) |}.

Definition storage_profile : gmap string value :=
  {[ "storage_mb" := VInt 5120; "backup_retention_days" := VInt 7;
     "geo_redundant_backup" := VString "Disabled"; "auto_grow" := VString "Enabled" ]}.

Definition config (sku : string) (mb : Z) : gmap string attr :=
  {[ "name" := AString "db1"; "location" := AString "West Europe";
     "resource_group_name" := AString "rg1"; "sku_name" := AString sku;
     "administrator_login" := AString "dbadmin";
     "administrator_login_password" := AString "secret";
     "version" := AString "5.7"; "ssl_enforcement" := AString "Enabled";
     "storage_profile" := AList [<["storage_mb" := VInt mb]> storage_profile];
     "public_network_access_enabled" := ABool true ]}.

Definition new_resource : ResourceData :=
  {| Id := EmptyString; IsNewResource := true; attrs := config "GP_Gen5_4" 5120 |}.

Definition known_resource : ResourceData :=
  {| Id := server_id; IsNewResource := false; attrs := config "GP_Gen5_4" 5120 |}.

(** The parsed forms of [server_id] and of [hybrid_connection_id]. *)
Definition server_rid : ResourceID :=
  {| SubscriptionID := "0000"; ResourceGroup := "rg1";
     Provider := "Microsoft.DBforMySQL"; Path := {[ "servers" := "db1" ]} |}.

Definition hybrid_connection_rid : ResourceID :=
  {| SubscriptionID := "0000"; ResourceGroup := "rg1";
     Provider := "Microsoft.Relay";
     Path := {[ "namespaces" := "ns1"; "hybridConnections" := "hc1" ]} |}.

(** A remote that returns the server to the read that directly follows a
    create, and fails every other read. *)
Definition flaky : ServersClient :=
  {| Get := fun log _ _ =>
       match last log with
       | Some (CallCreate _ _ _) => (the_server, None)
       | _ => (no_server 500, Some (RemoteFailure "InternalServerError"))
       end;
     Create := fun _ _ _ _ => (accepted, None);
     Delete := fun _ _ _ => (accepted, None) |}.

(** A create submitted earlier. *)
Definition create_call : Call :=
  CallCreate "rg1" "db1"
    {| ForCreate_Location := Some "westeurope"; ForCreate_Properties := None;
       ForCreate_Sku := None; ForCreate_Tags := ∅ |}.

End Sample.

(** The errors [resourceArmMySqlServerCreate] returns before it records the
    ID: those of the import check, of the SKU name, of the submission, of
    polling, of the re-read, and the missing ID. *)
Definition before_identity (e : error) : bool :=
  match e with
  | ErrCheckingPresence _ _ _ | ImportAsExistsError _ _ | ErrExpandingSku _ _ _
  | ErrCreating _ _ _ | ErrWaitingCreation _ _ _ | ErrRetrieving _ _ _
  | ErrCannotReadID _ _ => true
  | _ => false
  end.

(** ** The update of the server

    [resourceArmMySqlServerUpdate] submits an update, a call the create,
    read and delete functions never make, and has two error messages of
    its own. Its calls and errors extend those above, and its remote
    answers from the extended record of calls. *)

Record ServerUpdateParametersProperties : Type := {
  Update_StorageProfile : option StorageProfile;
  Update_AdministratorLoginPassword : option string;
  Update_Version : string;
  Update_SslEnforcement : string;
  Update_PublicNetworkAccess : string
}.

Record ServerUpdateParameters : Type := {
  ForUpdate_Properties : option ServerUpdateParametersProperties;
  ForUpdate_Sku : option Sku;
  ForUpdate_Tags : gmap string string
}.

Inductive UpdateCall : Type :=
| Plain (c : Call)
| CallUpdate (resourceGroup name : string) (properties : ServerUpdateParameters).

Inductive update_error : Type :=
| Shared (e : error)
| ErrUpdating (name resourceGroup : string) (cause : error)
| ErrWaitingUpdate (name resourceGroup : string) (cause : error).

Inductive update_outcome : Type :=
| UpdateReturned (err : option update_error)
| UpdatePanicked.

Definition shared_outcome (o : outcome) : update_outcome :=
  match o with
  | Returned e => UpdateReturned (Shared <$> e)
  | Panicked => UpdatePanicked
  end.

Record UpdateClient : Type := {
  Get_ : list UpdateCall → string → string → Server * option error;
  Create_ : list UpdateCall → string → string → ServerForCreate → Future * option error;
  Delete_ : list UpdateCall → string → string → Future * option error;
  Update_ : list UpdateCall → string → string → ServerUpdateParameters
            → Future * option error
}.

(** The same remote, seen by a function that makes no update, after the
    calls [earlier]. *)
Definition after (client : UpdateClient) (earlier : list UpdateCall) : ServersClient :=
  {| Get := fun log => Get_ client (earlier ++ (Plain <$> log));
     Create := fun log => Create_ client (earlier ++ (Plain <$> log));
     Delete := fun log => Delete_ client (earlier ++ (Plain <$> log)) |}.

Section Update.

Variable ParseAzureResourceID : string → ResourceID + string.
Variable NormalizeLocation : string → string.

Definition resourceArmMySqlServerUpdate (client : UpdateClient)
    (d : ResourceData) (log : list UpdateCall)
  : update_outcome * ResourceData * list UpdateCall :=
  let name := GetString (attrs d) "name" in
  let resourceGroup := GetString (attrs d) "resource_group_name" in
  match expandServerSkuName (GetString (attrs d) "sku_name") with
  | (_, Some err) =>
      (UpdateReturned (Some (Shared (ErrExpandingSku name resourceGroup err))), d, log)
  | (sku, None) =>
      let publicAccess :=
        if negb (GetBool (attrs d) "public_network_access_enabled")
        then PublicNetworkAccessEnumDisabled
        else PublicNetworkAccessEnumEnabled in
      match expandMySQLStorageProfile (attrs d) with
      | Panic => (UpdatePanicked, d, log)
      | Ok storageProfile =>
          let properties :=
            {| ForUpdate_Properties := Some
                 {| Update_StorageProfile := Some storageProfile;
                    Update_AdministratorLoginPassword :=
                      Some (GetString (attrs d) "administrator_login_password");
                    Update_Version := GetString (attrs d) "version";
                    Update_SslEnforcement := GetString (attrs d) "ssl_enforcement";
                    Update_PublicNetworkAccess := publicAccess |};
               ForUpdate_Sku := sku;
               ForUpdate_Tags := tags_Expand (GetMap (attrs d) "tags") |} in
          let '(future, err) := Update_ client log resourceGroup name properties in
          let log := (log ++ [CallUpdate resourceGroup name properties])%list in
          match err with
          | Some err =>
              (UpdateReturned (Some (ErrUpdating name resourceGroup err)), d, log)
          | None =>
              match WaitForCompletionRef future with
              | Some err =>
                  (UpdateReturned (Some (ErrWaitingUpdate name resourceGroup err)), d, log)
              | None =>
                  let '(read, err) := Get_ client log resourceGroup name in
                  let log := (log ++ [Plain (CallGet resourceGroup name)])%list in
                  match err with
                  | Some err =>
                      (UpdateReturned
                         (Some (Shared (ErrRetrieving name resourceGroup err))), d, log)
                  | None =>
                      match ID read with
                      | None =>
                          (UpdateReturned
                             (Some (Shared (ErrCannotReadID name resourceGroup))), d, log)
                      | Some id =>
                          let '(out, d, calls) :=
                            run (resourceArmMySqlServerRead ParseAzureResourceID
                                   NormalizeLocation (after client log))
                                (SetId d id) [] in
                          (shared_outcome out, d, (log ++ (Plain <$> calls))%list)
                      end
                  end
              end
          end
      end
  end.

(** ** The validation functions of the Relay identifiers

    They return the warnings and the errors of an attribute value [i] under
    the key [k]. The errors are formatted from the key or the value and from
    the error of the parser. *)

Inductive validation_error : Type :=
| ErrExpectedString (k : string)
| ErrCanNotParse (shown : string) (cause : error).

(** [v, ok := i.(string)]: the zero value and false when [i] does not hold
    a string. *)
Definition string_of_interface (i : option value) : string * bool :=
  match i with
  | Some (VString s) => (s, true)
  | _ => (EmptyString, false)
  end.

Definition ValidateHybridConnectionID (i : option value) (k : string)
  : list string * list validation_error :=
  let warnings : list string := [] in
  let errors : list validation_error := [] in
  let '(v, ok) := string_of_interface i in
  let errors := if negb ok then (errors ++ [ErrExpectedString k])%list else errors in
  let errors :=
    match ParseHybridConnectionID ParseAzureResourceID v with
    | (_, Some err) => (errors ++ [ErrCanNotParse v err])%list
    | (_, None) => errors
    end in
  (warnings, errors).

Definition ValidateNamespaceID (i : option value) (k : string)
  : list string * list validation_error :=
  let warnings : list string := [] in
  let errors : list validation_error := [] in
  let '(v, ok) := string_of_interface i in
  let errors := if negb ok then (errors ++ [ErrExpectedString k])%list else errors in
  match ParseNamespaceID ParseAzureResourceID v with
  | (_, Some err) => (warnings, (errors ++ [ErrCanNotParse k err])%list)
  | (_, None) => (warnings, errors)
  end.

End Update.

(** The errors [resourceArmMySqlServerUpdate] returns before it records the
    ID of the re-read. *)
Definition update_before_identity (e : update_error) : bool :=
  match e with
  | Shared e => before_identity e
  | ErrUpdating _ _ _ | ErrWaitingUpdate _ _ _ => true
  end.

(** The attributes [resourceArmMySqlServerRead] writes. *)
Definition read_attributes : list string :=
  [ "name"; "resource_group_name"; "location"; "sku_name"; "administrator_login";
    "version"; "ssl_enforcement"; "public_network_access_enabled";
    "storage_profile"; "fqdn"; "tags" ].

(** The store [resourceArmMySqlServerRead] leaves when the payload has its
    properties and these a storage profile: its writes, in their order. *)
Definition decoded (NormalizeLocation : string → string) (id : ResourceID)
    (resp : Server) (props : ServerProperties) (sp : StorageProfile)
    (d : ResourceData) : ResourceData :=
  let d := SetStringPtr d "name" (Name resp) in
  let d := Set_ d "resource_group_name" (AString (ResourceGroup id)) in
  let d := match Location resp with
           | Some location => Set_ d "location" (AString (NormalizeLocation location))
           | None => d
           end in
  let d := match Server_Sku resp with
           | Some sku => SetStringPtr d "sku_name" (Sku_Name sku)
           | None => d
           end in
  let d := SetStringPtr d "administrator_login" (AdministratorLogin props) in
  let d := Set_ d "version" (AString (Version props)) in
  let d := Set_ d "ssl_enforcement" (AString (SslEnforcement props)) in
  let d := Set_ d "public_network_access_enabled"
             (ABool (negb (String.eqb (PublicNetworkAccess props)
                                      PublicNetworkAccessEnumDisabled))) in
  let d := match flattenMySQLStorageProfile (Some sp) with
           | Ok flat => SetList d "storage_profile" flat
           | Panic => d
           end in
  let d := SetStringPtr d "fqdn" (FullyQualifiedDomainName props) in
  Set_ d "tags" (AMap (Server_Tags resp)).

(** A remote for the update: it holds the server from the start, and
    returns it with the storage the last update asked for. *)
Module SampleUpdate.

Definition initial_storage : StorageProfile :=
  {| BackupRetentionDays := Some 7; GeoRedundantBackup := "Disabled";
     StorageMB := Some 5120; StorageAutogrow := "Enabled" |}.

Fixpoint updated_storage (log : list UpdateCall) (current : option StorageProfile)
  : option StorageProfile :=
  match log with
  | [] => current
  | CallUpdate _ _ p :: rest =>
      updated_storage rest
        match ForUpdate_Properties p with
        | Some props => Update_StorageProfile props
        | None => current
        end
  | Plain _ :: rest => updated_storage rest current
  end.

Definition server (log : list UpdateCall) : Server :=
  {| Response := Some 200;
     Server_Sku := Server_Sku Sample.the_server;
     Server_Properties := Some
       {| AdministratorLogin := Some "dbadmin";
          Version := "5.7";
          SslEnforcement := "Enabled";
          FullyQualifiedDomainName := Some "db1.mysql.database.azure.com";
          Properties_StorageProfile := updated_storage log (Some initial_storage);
          PublicNetworkAccess := "Enabled" |};
     Server_Tags := ∅;
     Location := Some "West Europe";
     ID := Some Sample.server_id;
     Name := Some "db1" |}.

Definition remote : UpdateClient :=
  {| Get_ := fun log _ _ => (server log, None);
     Create_ := fun _ _ _ _ => (Sample.accepted, None);
     Delete_ := fun _ _ _ => (Sample.accepted, None);
     Update_ := fun _ _ _ _ => (Sample.accepted, None) |}.

(** A remote that refuses every update. *)
Definition refusing : UpdateClient :=
  {| Get_ := fun log _ _ => (server log, None);
     Create_ := fun _ _ _ _ => (Sample.accepted, None);
     Delete_ := fun _ _ _ => (Sample.accepted, None);
     Update_ := fun _ _ _ _ =>
       ({| FutureResponse := Some 409; WaitForCompletionRef := None |},
        Some (RemoteFailure "Conflict")) |}.

Definition resized : ResourceData :=
  {| Id := Sample.server_id; IsNewResource := false;
     attrs := Sample.config "GP_Gen5_4" 10240 |}.

End SampleUpdate.

(** * Properties *)

(** ** Splitting and parsing integers *)

Definition is_digit (a : ascii) : bool :=
  let n := nat_of_ascii a in ((48 <=? n)%nat && (n <=? 57)%nat)%bool.

Fixpoint all_digits (s : string) : bool :=
  match s with
  | EmptyString => true
  | String a s' => is_digit a && all_digits s'
  end.

(** What "the part is an integer" means: an optional sign, then one or
    more decimal digits. *)
Definition integer_literal (s : string) : bool :=
  match s with
  | EmptyString => false
  | String a rest =>
      if (Ascii.eqb a "-" || Ascii.eqb a "+")%bool
      then negb (String.eqb rest EmptyString) && all_digits rest
      else all_digits s
  end.

Lemma digit_is_digit a v : digit a = Some v → is_digit a = true.
Proof.
  unfold digit, is_digit. cbv zeta.
  destruct (_ && _)%bool; [reflexivity | discriminate].
Qed.

Lemma digits_all_digits s : ∀ acc v, digits s acc = Some v → all_digits s = true.
Proof.
  induction s as [|a s IH]; intros acc v H; [reflexivity|].
  simpl in H. destruct (digit a) as [w|] eqn:Hd; [|discriminate].
  simpl. rewrite (digit_is_digit _ _ Hd). simpl. eapply IH, H.
Qed.

Lemma Atoi_integer_literal s v : Atoi s = Some v → integer_literal s = true.
Proof.
  destruct s as [|a rest]; [discriminate|].
  unfold Atoi, integer_literal.
  destruct (Ascii.eqb a "-") eqn:Hm; simpl.
  - destruct rest as [|b rest]; [discriminate|].
    destruct (digits (String b rest) 0) as [u|] eqn:Hd; [|discriminate].
    intros _. apply (digits_all_digits _ _ _ Hd).
  - destruct (Ascii.eqb a "+") eqn:Hp.
    + destruct rest as [|b rest]; [discriminate|].
      destruct (digits (String b rest) 0) as [u|] eqn:Hd; [|discriminate].
      intros _. apply (digits_all_digits _ _ _ Hd).
    + destruct (digits (String a rest) 0) as [u|] eqn:Hd; [|discriminate].
      intros _. apply (digits_all_digits _ _ _ Hd).
Qed.

Lemma Split_nonempty s sep : Split s sep ≠ [].
Proof.
  destruct s as [|a s]; simpl; [discriminate|].
  destruct (Ascii.eqb a sep); [discriminate|].
  destruct (Split s sep); discriminate.
Qed.

(** When there is a second part, the string is the first part, the
    separator, and a rest. *)
Lemma Split_second s sep : ∀ p q ps,
  Split s sep = p :: q :: ps → ∃ rest, s = (p ++ String sep rest)%string.
Proof.
  induction s as [|a s IH]; intros p q ps H; [discriminate|].
  simpl in H. destruct (Ascii.eqb a sep) eqn:Ha.
  - apply Ascii.eqb_eq in Ha. subst a. injection H as <- _. by exists s.
  - destruct (Split s sep) as [|p' ps'] eqn:Hs; [discriminate|].
    injection H as Hp Hps. subst p ps'.
    destruct (IH _ _ _ eq_refl) as [rest ->]. by exists rest.
Qed.

(** A non-empty first part starts the string. *)
Lemma Split_first_byte s sep a p ps :
  Split s sep = String a p :: ps → ∃ s', s = String a s'.
Proof.
  destruct s as [|b s]; [discriminate|]. simpl.
  destruct (Ascii.eqb b sep); [discriminate|].
  destruct (Split s sep); intros [= -> _]; by eexists.
Qed.

Lemma int32_id x : in_int32 x → int32 x = x.
Proof.
  unfold in_int32, int32. intros H.
  rewrite Z.mod_small; lia.
Qed.

(** ** The SKU name *)

(** C2. [expandServerSkuName] splits the name on the underscore into
    exactly three parts. "GP_Gen5_4" gives the tier GeneralPurpose, the
    family "Gen5" and the capacity 4; "B_Gen4_1" gives Basic, "Gen4" and
    1. A name with another number of parts ("GP_4"), a first part outside
    B, GP, MO ("XX_Gen5_4"), or a last part that is not an integer gives a
    nil SKU and an error. On success the middle part is the family,
    unchanged. *)
Theorem expandServerSkuName_spec :
  expandServerSkuName "GP_Gen5_4"
    = (Some {| Sku_Name := Some "GP_Gen5_4"; Sku_Tier := GeneralPurpose;
               Sku_Capacity := Some 4; Sku_Family := Some "Gen5" |}, None)
  ∧ expandServerSkuName "B_Gen4_1"
    = (Some {| Sku_Name := Some "B_Gen4_1"; Sku_Tier := Basic;
               Sku_Capacity := Some 1; Sku_Family := Some "Gen4" |}, None)
  ∧ expandServerSkuName "GP_4" = (None, Some (ErrSkuParts "GP_4" 2))
  ∧ expandServerSkuName "XX_Gen5_4" = (None, Some (ErrSkuTier "XX_Gen5_4" "XX"))
  ∧ (∀ s, length (Split s "_") ≠ 3%nat →
       expandServerSkuName s = (None, Some (ErrSkuParts s (length (Split s "_")))))
  ∧ (∀ s p0, head (Split s "_") = Some p0 →
       p0 ≠ "B" → p0 ≠ "GP" → p0 ≠ "MO" →
       ∃ e, expandServerSkuName s = (None, Some e))
  ∧ (∀ s pn, last (Split s "_") = Some pn → integer_literal pn = false →
       ∃ e, expandServerSkuName s = (None, Some e))
  ∧ (∀ s sku e, expandServerSkuName s = (Some sku, e) →
       e = None ∧ ∃ p0 p1 p2, Split s "_" = [p0; p1; p2]
                ∧ Sku_Family sku = Some p1 ∧ Sku_Name sku = Some s).
Proof.
  repeat split; try reflexivity.
  - intros s Hlen. unfold expandServerSkuName.
    destruct (Split s "_") as [|p0 [|p1 [|p2 [|p3 ps]]]]; try reflexivity.
    by destruct Hlen.
  - intros s p0 Hhd HB HGP HMO. unfold expandServerSkuName.
    destruct (Split s "_") as [|q0 [|p1 [|p2 [|p3 ps]]]]; try by eexists.
    injection Hhd as ->.
    apply String.eqb_neq in HB, HGP, HMO. rewrite HB, HGP, HMO. by eexists.
  - intros s pn Hlast Hint. unfold expandServerSkuName.
    destruct (Split s "_") as [|p0 [|p1 [|p2 [|p3 ps]]]]; try by eexists.
    injection Hlast as ->.
    destruct (Atoi pn) as [v|] eqn:HA.
    { apply Atoi_integer_literal in HA. congruence. }
    destruct (String.eqb p0 "B"); [by eexists|].
    destruct (String.eqb p0 "GP"); [by eexists|].
    destruct (String.eqb p0 "MO"); by eexists.
  - revert H. unfold expandServerSkuName.
    destruct (Split s "_") as [|p0 [|p1 [|p2 [|p3 ps]]]]; try discriminate.
    destruct (if String.eqb p0 "B" then _ else _); [|discriminate].
    destruct (Atoi p2); [|discriminate]. by intros [= <- <-].
  - revert H. unfold expandServerSkuName.
    destruct (Split s "_") as [|p0 [|p1 [|p2 [|p3 ps]]]]; try discriminate.
    destruct (if String.eqb p0 "B" then _ else _); [|discriminate].
    destruct (Atoi p2); [|discriminate]. intros [= <- <-]. by exists p0, p1, p2.
Qed.

(** ** The storage profile *)

(** What [flattenMySQLStorageProfile] returns on what
    [expandMySQLStorageProfile] built, whatever the declared integers. *)
Lemma flatten_expand (d : gmap string attr) (declared : gmap string value)
    rest mb days geo grow :
  GetList d "storage_profile" = declared :: rest →
  declared !! "storage_mb" = Some (VInt mb) →
  declared !! "backup_retention_days" = Some (VInt days) →
  declared !! "geo_redundant_backup" = Some (VString geo) →
  declared !! "auto_grow" = Some (VString grow) →
  ∃ wire flat,
    expandMySQLStorageProfile d = Ok wire
    ∧ flattenMySQLStorageProfile (Some wire) = Ok [flat]
    ∧ flat !! "storage_mb" = Some (VInt32 (int32 mb))
    ∧ flat !! "backup_retention_days" = Some (VInt32 (int32 days))
    ∧ flat !! "geo_redundant_backup" = Some (VString geo)
    ∧ flat !! "auto_grow" = Some (VString grow)
    ∧ dom flat = dom ({[ "storage_mb" := VInt 0; "backup_retention_days" := VInt 0;
                         "geo_redundant_backup" := VInt 0; "auto_grow" := VInt 0 ]}
                      : gmap string value).
Proof.
  intros Hl Hmb Hdays Hgeo Hgrow.
  unfold expandMySQLStorageProfile. rewrite Hl. simpl.
  rewrite Hdays, Hgeo, Hmb, Hgrow. simpl.
  eexists _, _. split; [reflexivity|]. split; [reflexivity|].
  repeat split; by simplify_map_eq.
Qed.

Lemma validate_storage_profile_inv (l : list (gmap string value)) :
  validate_storage_profile l = true →
  ∃ m mb days geo grow,
    l = [m]
    ∧ m !! "storage_mb" = Some (VInt mb) ∧ 5120 <= mb <= 4194304
    ∧ m !! "backup_retention_days" = Some (VInt days) ∧ 0 <= days <= 35
    ∧ m !! "geo_redundant_backup" = Some (VString geo)
    ∧ m !! "auto_grow" = Some (VString grow).
Proof.
  destruct l as [|m [|m' l]]; try discriminate. simpl.
  intros H.
  apply andb_prop in H as [H Hgrow]. apply andb_prop in H as [H Hgeo].
  apply andb_prop in H as [Hmb Hdays].
  destruct (m !! "storage_mb") as [[mb| | |]|] eqn:E1; try discriminate.
  destruct (m !! "backup_retention_days") as [[days| | |]|] eqn:E2; try discriminate.
  destruct (m !! "geo_redundant_backup") as [[| |geo|]|] eqn:E3; try discriminate.
  destruct (m !! "auto_grow") as [[| |grow|]|] eqn:E4; try discriminate.
  exists m, mb, days, geo, grow.
  simpl in Hmb, Hdays. unfold IntBetween in *.
  apply andb_prop in Hmb as [Hmb _]. apply andb_prop in Hmb as [Hlo Hhi].
  apply Z.leb_le in Hlo, Hhi.
  assert (0 <= days <= 35) as Rdays.
  { apply orb_prop in Hdays as [Hz|Hb].
    - apply Z.eqb_eq in Hz. lia.
    - apply andb_prop in Hb as [Hl Hh]. apply Z.leb_le in Hl, Hh. lia. }
  repeat split; try assumption; lia.
Qed.

(** C1. For every configuration the validation accepts, flattening the
    storage profile that [expandMySQLStorageProfile] built from it returns
    a list of one element, whose [storage_mb], [backup_retention_days],
    [geo_redundant_backup] and [auto_grow] are the declared values (the
    integers as [int32], which the store reads back as the declared
    [int]), and which has no other key. *)
Theorem storage_profile_round_trip (d : gmap string attr) :
  Validator d = true →
  ∃ declared wire flat mb days geo grow,
    GetList d "storage_profile" = [declared]
    ∧ declared !! "storage_mb" = Some (VInt mb)
    ∧ declared !! "backup_retention_days" = Some (VInt days)
    ∧ declared !! "geo_redundant_backup" = Some (VString geo)
    ∧ declared !! "auto_grow" = Some (VString grow)
    ∧ expandMySQLStorageProfile d = Ok wire
    ∧ flattenMySQLStorageProfile (Some wire) = Ok [flat]
    ∧ flat !! "storage_mb" = Some (VInt32 mb)
    ∧ flat !! "backup_retention_days" = Some (VInt32 days)
    ∧ flat !! "geo_redundant_backup" = Some (VString geo)
    ∧ flat !! "auto_grow" = Some (VString grow)
    ∧ (∀ k, is_Some (flat !! k) → (as_schema_int <$> flat) !! k = declared !! k).
Proof.
  intros H. unfold Validator, validate_schema in H.
  apply andb_prop in H as [H _]. apply andb_prop in H as [_ H].
  apply validate_storage_profile_inv in H
    as (m & mb & days & geo & grow & Hl & Hmb & Rmb & Hdays & Rdays & Hgeo & Hgrow).
  destruct (flatten_expand d m [] mb days geo grow Hl Hmb Hdays Hgeo Hgrow)
    as (wire & flat & He & Hf & F1 & F2 & F3 & F4 & Hdom).
  rewrite int32_id in F1 by (unfold in_int32; lia).
  rewrite int32_id in F2 by (unfold in_int32; lia).
  exists m, wire, flat, mb, days, geo, grow.
  repeat split; try assumption.
  intros k Hk. apply elem_of_dom in Hk. rewrite Hdom in Hk.
  rewrite lookup_fmap.
  assert (k = "storage_mb" ∨ k = "backup_retention_days"
          ∨ k = "geo_redundant_backup" ∨ k = "auto_grow") as Hcases.
  { rewrite !dom_insert_L in Hk. set_solver. }
  destruct Hcases as [ -> | [ -> | [ -> | -> ] ] ].
  - by rewrite F1, Hmb.
  - by rewrite F2, Hdays.
  - by rewrite F3, Hgeo.
  - by rewrite F4, Hgrow.
Qed.

(** ** The cross-field check *)

(** C7. [CustomizeDiff] is a function of the proposed attributes alone (of
    [sku_name] and of the [storage_mb] of the first storage profile). It
    returns a violation for every configuration whose SKU name has the tier
    part "B" and whose [storage_mb] exceeds 1,048,576, and none for every
    configuration whose SKU name has the tier part "GP", whatever the
    storage size. *)
Theorem CustomizeDiff_spec :
  (∀ d p ps,
      Split (GetString d "sku_name") "_" = "B" :: p :: ps →
      1048576 < GetNestedInt d "storage_profile" 0 "storage_mb" →
      CustomizeDiff d = Some ErrBasicTierStorage)
  ∧ (∀ d ps,
      Split (GetString d "sku_name") "_" = "GP" :: ps →
      CustomizeDiff d = None)
  ∧ (∀ d d',
      GetString d "sku_name" = GetString d' "sku_name" →
      GetNestedInt d "storage_profile" 0 "storage_mb"
        = GetNestedInt d' "storage_profile" 0 "storage_mb" →
      CustomizeDiff d = CustomizeDiff d').
Proof.
  split; [|split].
  - intros d p ps Hs Hmb. unfold CustomizeDiff.
    apply Split_second in Hs as [rest ->].
    apply Z.ltb_lt in Hmb. rewrite Hmb.
    unfold HasPrefix. simpl. by destruct rest.
  - intros d ps Hs. unfold CustomizeDiff.
    apply Split_first_byte in Hs as [s' ->]. reflexivity.
  - intros d d' Hs Hmb. unfold CustomizeDiff. by rewrite Hs, Hmb.
Qed.

(** ** The lifecycle functions and the identity parsers *)

Section LifecycleProperties.

Variable P : string → ResourceID + string.
Variable N : string → string.

Ltac unfold_monad :=
  unfold run, skip, tags_FlattenAndSet, d_SetList, d_SetId, d_Set,
    d_SetStringPtr, d_attrs, d_Id, d_IsNewResource, d_update,
    client_Get, client_Create, client_Delete, lift, deref,
    bind, pure, return_ in *;
  simpl in *.

(** What [resourceArmMySqlServerRead] does, by the answer of the remote. *)
Lemma Read_run client d log id resp err :
  P (Id d) = inl id →
  Get client log (ResourceGroup id) (default EmptyString (Path id !! "servers")) = (resp, err) →
  let name := default EmptyString (Path id !! "servers") in
  let resourceGroup := ResourceGroup id in
  let log' := (log ++ [CallGet resourceGroup name])%list in
  let r := run (resourceArmMySqlServerRead P N client) d log in
  (∀ e, err = Some e → ResponseWasNotFound (Response resp) = true →
        r = (Returned None, SetId d EmptyString, log'))
  ∧ (∀ e, err = Some e → ResponseWasNotFound (Response resp) = false →
        r = (Returned (Some (ErrReadRequest name resourceGroup e)), d, log'))
  ∧ (err = None → Server_Properties resp = None → ∃ d', r = (Panicked, d', log'))
  ∧ (∀ props, err = None → Server_Properties resp = Some props →
        Properties_StorageProfile props = None → ∃ d', r = (Panicked, d', log'))
  ∧ (∀ props sp, err = None → Server_Properties resp = Some props →
        Properties_StorageProfile props = Some sp →
        ∃ d', r = (Returned None, d', log')
          ∧ Id d' = Id d
          ∧ attrs d' !! "fqdn" = AString <$> FullyQualifiedDomainName props
          ∧ attrs d' !! "public_network_access_enabled"
            = Some (ABool (negb (String.eqb (PublicNetworkAccess props)
                                            PublicNetworkAccessEnumDisabled)))).
Proof.
  intros HP HG name resourceGroup log' r.
  subst r log' name resourceGroup.
  unfold resourceArmMySqlServerRead. unfold_monad. rewrite HP. simpl. rewrite HG.
  repeat split.
  - intros e -> ->. reflexivity.
  - intros e -> ->. reflexivity.
  - intros -> ->. destruct (Location resp), (Server_Sku resp); by eexists.
  - intros props -> -> ->. destruct (Location resp), (Server_Sku resp); by eexists.
  - intros props sp -> -> ->.
    destruct (Location resp), (Server_Sku resp) as [[[?|] ? ? ?]|],
      (FullyQualifiedDomainName props) eqn:?, (AdministratorLogin props),
      (Name resp);
    simpl; eexists; (split; [reflexivity|]); simpl; repeat split;
    by simplify_map_eq.
Qed.

Lemma Read_exits client w st w' :
  resourceArmMySqlServerRead P N client w = (st, w') →
  match st with
  | Next a => False
  | Return (Some e) => before_identity e = false
  | _ => True
  end.
Proof.
  unfold resourceArmMySqlServerRead. unfold_monad.
  intros H. repeat case_match; simplify_eq; done.
Qed.

(** [resourceArmMySqlServerRead] submits no create. *)
Lemma Read_calls client w st w' :
  resourceArmMySqlServerRead P N client w = (st, w') →
  ∀ rg n p, CallCreate rg n p ∈ calls w' → CallCreate rg n p ∈ calls w.
Proof.
  unfold resourceArmMySqlServerRead. unfold_monad.
  intros H rg n p. repeat case_match; simplify_eq; simpl;
    first [ done
          | intros [?|Hc%list_elem_of_singleton]%elem_of_app; [done|discriminate] ].
Qed.

Lemma import_check_cases client resourceGroup name w st w' :
  import_check client resourceGroup name w = (st, w') →
  data w' = data w
  ∧ calls w' = (calls w ++ [CallGet resourceGroup name])%list
  ∧ match st with
    | Next _ => True
    | Return (Some e) => before_identity e = true
    | _ => False
    end.
Proof.
  unfold import_check. unfold_monad.
  intros H. repeat case_match; simplify_eq; done.
Qed.

(** The two ways [resourceArmMySqlServerCreate] ends: before the ID is
    recorded, with the store as it was, or after the create was submitted
    and polled without error and the re-read returned an ID. *)
Lemma Create_cases client imp w st w' :
  resourceArmMySqlServerCreate P N imp client w = (st, w') →
  let name := GetString (attrs (data w)) "name" in
  let resourceGroup := GetString (attrs (data w)) "resource_group_name" in
  (data w' = data w
   ∧ match st with
     | Return (Some e) => before_identity e = true
     | Panics => True
     | _ => False
     end)
  ∨ (∃ pre properties future read id,
        Create client pre resourceGroup name properties = (future, None)
        ∧ WaitForCompletionRef future = None
        ∧ Get client (pre ++ [CallCreate resourceGroup name properties])
            resourceGroup name = (read, None)
        ∧ ID read = Some id
        ∧ match st with
          | Next _ => False
          | Return (Some e) => before_identity e = false
          | _ => True
          end).
Proof.
  intros H name resourceGroup. revert H.
  unfold resourceArmMySqlServerCreate, create_properties.
  unfold bind at 1 2 3. unfold d_attrs at 1, d_IsNewResource. cbv beta iota zeta.
  fold name resourceGroup.
  destruct ((if (imp && IsNewResource (data w))%bool
             then import_check client resourceGroup name else skip) w)
    as [st1 w1] eqn:Himp.
  assert (data w1 = data w
          ∧ match st1 with
            | Next _ => True
            | Return (Some e) => before_identity e = true
            | _ => False
            end) as [Hd1 Hst1].
  { destruct (imp && IsNewResource (data w))%bool.
    - apply import_check_cases in Himp. tauto.
    - unfold skip, pure in Himp. by simplify_eq. }
  clear Himp.
  destruct st1 as [[]|e1|]; [|intros [= <- <-]; left; by destruct e1|done].
  destruct w1 as [d1 l1]. simpl in Hd1. subst d1.
  remember (resourceArmMySqlServerRead P N client) as rd eqn:Hrd.
  unfold_monad. intros H.
  repeat case_match; simplify_eq; try (left; done).
  all: right; simpl in *; apply Read_exits in H;
    eexists _, _, _, _, _; repeat split; [eassumption..|done].
Qed.

(** The payload of every create that [resourceArmMySqlServerCreate]
    submits is built from the store: the storage profile is the expanded
    one and the public network access is that of the boolean. *)
Lemma Create_payload client imp d log rg n p :
  CallCreate rg n p ∈ (run (resourceArmMySqlServerCreate P N imp client) d log).2 →
  CallCreate rg n p ∈ log
  ∨ ∃ props sp,
      ForCreate_Properties p = Some props
      ∧ expandMySQLStorageProfile (attrs d) = Ok sp
      ∧ Create_StorageProfile props = Some sp
      ∧ Create_PublicNetworkAccess props
        = if GetBool (attrs d) "public_network_access_enabled"
          then PublicNetworkAccessEnumEnabled
          else PublicNetworkAccessEnumDisabled.
Proof.
  unfold run.
  destruct (resourceArmMySqlServerCreate P N imp client {| data := d; calls := log |})
    as [st w'] eqn:H.
  assert (CallCreate rg n p ∈ calls w' → CallCreate rg n p ∈ log ∨ ∃ props sp,
      ForCreate_Properties p = Some props
      ∧ expandMySQLStorageProfile (attrs d) = Ok sp
      ∧ Create_StorageProfile props = Some sp
      ∧ Create_PublicNetworkAccess props
        = if GetBool (attrs d) "public_network_access_enabled"
          then PublicNetworkAccessEnumEnabled
          else PublicNetworkAccessEnumDisabled) as Hgoal;
    [|by destruct st as [[]| |]].
  revert H.
  unfold resourceArmMySqlServerCreate, create_properties.
  unfold bind at 1 2 3. unfold d_attrs at 1, d_IsNewResource. cbv beta iota zeta.
  simpl.
  destruct ((if (imp && IsNewResource d)%bool
             then import_check client (GetString (attrs d) "resource_group_name")
                    (GetString (attrs d) "name") else skip)
              {| data := d; calls := log |})
    as [st1 w1] eqn:Himp.
  assert (data w1 = d
          ∧ ∀ c, c ∈ calls w1 → c ∈ log ∨ ∃ g m, c = CallGet g m) as [Hd1 Hl1].
  { destruct (imp && IsNewResource d)%bool.
    - apply import_check_cases in Himp as (? & -> & _). simpl. split; [done|].
      intros c [?|Hc%list_elem_of_singleton]%elem_of_app; eauto.
    - unfold skip, pure in Himp. simplify_eq. simpl. eauto. }
  clear Himp.
  destruct st1 as [[]|e1|]; [| |].
  2,3: intros [= <- <-] Hin; apply Hl1 in Hin as [?|(?&?&?)]; by eauto.
  destruct w1 as [d1 l1]. simpl in Hd1, Hl1. subst d1.
  remember (resourceArmMySqlServerRead P N client) as rd eqn:Hrd.
  unfold_monad. intros H Hin.
  repeat case_match; simplify_eq; simpl in *.
  all: try (apply Hl1 in Hin as [?|(?&?&?)]; by eauto).
  all: try (apply (Read_calls _ _ _ _ H) in Hin; simpl in Hin).
  all: repeat (apply elem_of_app in Hin as [Hin|Hin%list_elem_of_singleton]);
    try discriminate.
  all: try (apply Hl1 in Hin as [?|(?&?&?)]; by eauto).
  all: simplify_eq; right; eexists _, _; simpl; repeat split; eauto.
Qed.

(** The create payload does not read the [fqdn] attribute. *)
Lemma create_properties_ignores_fqdn location publicAccess sku
    (d0 : ResourceData) log0 v :
  (create_properties location publicAccess sku
     {| data := Set_ d0 "fqdn" v; calls := log0 |}).1
  = (create_properties location publicAccess sku
       {| data := d0; calls := log0 |}).1.
Proof.
  unfold create_properties. unfold_monad.
  unfold expandMySQLStorageProfile, GetList, GetString, GetMap.
  rewrite !lookup_insert_ne by done.
  by destruct (res_bind _ _).
Qed.

(** C3, as the code has it. With an ID that parses,
    [resourceArmMySqlServerDelete] submits one delete and returns nil only
    when neither the submission nor polling returned an error; an error of
    the submission is surfaced whatever the status of its response, a
    not-found response included, and so is an error of polling. The store
    is left as it was. *)
Theorem Delete_surfaces_every_failure client d log id future err :
  P (Id d) = inl id →
  Delete client log (ResourceGroup id) (default EmptyString (Path id !! "servers"))
    = (future, err) →
  let name := default EmptyString (Path id !! "servers") in
  let resourceGroup := ResourceGroup id in
  run (resourceArmMySqlServerDelete P client) d log
  = (Returned
       match err with
       | Some e => Some (ErrDeleting name resourceGroup e)
       | None =>
           match WaitForCompletionRef future with
           | Some e => Some (ErrWaitingDeletion name resourceGroup e)
           | None => None
           end
       end,
     d, (log ++ [CallDelete resourceGroup name])%list).
Proof.
  intros HP HD name resourceGroup. subst name resourceGroup.
  unfold resourceArmMySqlServerDelete. unfold_monad. rewrite HP. simpl. rewrite HD.
  destruct err; [reflexivity|].
  by destruct (WaitForCompletionRef future).
Qed.

(** C4. Whenever [resourceArmMySqlServerCreate] fails with an error of the
    import check, of the SKU name, of the create submission, of polling,
    of the re-read, or with the missing ID, the store is the one it was
    given: no ID is recorded. The store changes only after the create was
    submitted and polled without error and the re-read that follows
    returned a non-nil ID. *)
Theorem Create_failure_records_no_identity client imp d log :
  let r := run (resourceArmMySqlServerCreate P N imp client) d log in
  let name := GetString (attrs d) "name" in
  let resourceGroup := GetString (attrs d) "resource_group_name" in
  (∀ e, r.1.1 = Returned (Some e) → before_identity e = true → r.1.2 = d)
  ∧ (r.1.2 ≠ d →
       ∃ pre properties future read id,
         Create client pre resourceGroup name properties = (future, None)
         ∧ WaitForCompletionRef future = None
         ∧ Get client (pre ++ [CallCreate resourceGroup name properties])
             resourceGroup name = (read, None)
         ∧ ID read = Some id).
Proof.
  intros r name resourceGroup. subst r. unfold run.
  destruct (resourceArmMySqlServerCreate P N imp client {| data := d; calls := log |})
    as [st w'] eqn:H.
  apply Create_cases in H. simpl in H. fold name resourceGroup in H.
  destruct H as [[Hd Hst]|(pre & props & fut & read & id & H1 & H2 & H3 & H4 & Hst)].
  - split.
    + by destruct st as [[]|[e'|]|].
    + intros Hne. by destruct st as [[]|[e'|]|].
  - split.
    + intros e He Hb. destruct st as [[]|[e'|]|]; simpl in He; simplify_eq.
      congruence.
    + intros _. by exists pre, props, fut, read, id.
Qed.

(** C5. With the import check enabled and a new resource,
    [resourceArmMySqlServerCreate] first reads the server by the declared
    resource group and name. When that read returns a non-nil, non-empty ID
    (without error, or with a not-found response), the create fails with
    the already-exists error; when it returns an error that is not a
    not-found response, the create fails with the error of the presence
    check, which is another error. In both cases the read is the only call
    submitted, and the store is as it was. *)
Theorem Create_import_check client d log existing err :
  IsNewResource d = true →
  Get client log (GetString (attrs d) "resource_group_name")
    (GetString (attrs d) "name") = (existing, err) →
  let name := GetString (attrs d) "name" in
  let resourceGroup := GetString (attrs d) "resource_group_name" in
  let r := run (resourceArmMySqlServerCreate P N true client) d log in
  let log' := (log ++ [CallGet resourceGroup name])%list in
  (∀ id, ID existing = Some id → id ≠ EmptyString →
         err = None ∨ ResponseWasNotFound (Response existing) = true →
         r = (Returned (Some (ImportAsExistsError "azurerm_mysql_server" id)), d, log'))
  ∧ (∀ e, err = Some e → ResponseWasNotFound (Response existing) = false →
         r = (Returned (Some (ErrCheckingPresence name resourceGroup e)), d, log'))
  ∧ (∀ resource id n g e, ImportAsExistsError resource id ≠ ErrCheckingPresence n g e).
Proof.
  intros Hnew HG name resourceGroup r log'. subst r log' name resourceGroup.
  unfold resourceArmMySqlServerCreate, import_check. unfold_monad.
  rewrite Hnew. simpl. rewrite HG.
  split; [|split]; [| |done].
  - intros id Hid Hne%String.eqb_neq Hfound. rewrite Hid, Hne. simpl.
    destruct Hfound as [->| ->]; [reflexivity|]. by destruct err.
  - intros e -> ->. reflexivity.
Qed.

(** C6. When the remote reports not-found, [resourceArmMySqlServerRead]
    returns nil and clears the ID; on any other error of the remote it
    returns an error and leaves the store as it was; on a complete payload
    it returns nil, keeps the ID and stores the [fqdn] the remote computed,
    an attribute the create payload does not depend on. *)
Theorem Read_spec client d log id resp err :
  P (Id d) = inl id →
  Get client log (ResourceGroup id) (default EmptyString (Path id !! "servers")) = (resp, err) →
  let name := default EmptyString (Path id !! "servers") in
  let resourceGroup := ResourceGroup id in
  let log' := (log ++ [CallGet resourceGroup name])%list in
  let r := run (resourceArmMySqlServerRead P N client) d log in
  (∀ e, err = Some e → ResponseWasNotFound (Response resp) = true →
        r = (Returned None, SetId d EmptyString, log'))
  ∧ (∀ e, err = Some e → ResponseWasNotFound (Response resp) = false →
        r = (Returned (Some (ErrReadRequest name resourceGroup e)), d, log'))
  ∧ (∀ props sp, err = None → Server_Properties resp = Some props →
        Properties_StorageProfile props = Some sp →
        r.1.1 = Returned None ∧ r.2 = log' ∧ Id r.1.2 = Id d
        ∧ attrs r.1.2 !! "fqdn" = AString <$> FullyQualifiedDomainName props)
  ∧ (∀ location publicAccess sku (d0 : ResourceData) log0 v,
        (create_properties location publicAccess sku
           {| data := Set_ d0 "fqdn" v; calls := log0 |}).1
        = (create_properties location publicAccess sku
             {| data := d0; calls := log0 |}).1).
Proof.
  intros HP HG name resourceGroup log' r.
  destruct (Read_run client d log id resp err HP HG) as (R1 & R2 & _ & _ & R5).
  repeat split; try by eauto.
  - destruct (R5 props sp) as (d' & Hr & _); try done. subst r. by rewrite Hr.
  - destruct (R5 props sp) as (d' & Hr & _); try done. subst r. by rewrite Hr.
  - destruct (R5 props sp) as (d' & Hr & ? & _); try done. subst r. by rewrite Hr.
  - destruct (R5 props sp) as (d' & Hr & ? & ? & _); try done. subst r. by rewrite Hr.
  - apply create_properties_ignores_fqdn.
Qed.

(** C9. Decoding is partial. [flattenMySQLStorageProfile] panics on a nil
    storage profile; on a non-nil one it always writes
    [geo_redundant_backup] and [auto_grow], and it leaves [storage_mb] and
    [backup_retention_days] out exactly when their pointers are nil.
    [resourceArmMySqlServerRead] hands it the storage profile of the
    payload as it is, and panics when the payload has none. *)
Theorem decode_is_partial :
  flattenMySQLStorageProfile None = Panic
  ∧ (∀ sp, ∃ flat,
      flattenMySQLStorageProfile (Some sp) = Ok [flat]
      ∧ flat !! "geo_redundant_backup" = Some (VString (GeoRedundantBackup sp))
      ∧ flat !! "auto_grow" = Some (VString (StorageAutogrow sp))
      ∧ flat !! "storage_mb" = VInt32 <$> StorageMB sp
      ∧ flat !! "backup_retention_days" = VInt32 <$> BackupRetentionDays sp)
  ∧ (∀ client d log id resp props,
      P (Id d) = inl id →
      Get client log (ResourceGroup id) (default EmptyString (Path id !! "servers"))
        = (resp, None) →
      Server_Properties resp = Some props →
      Properties_StorageProfile props = None →
      (run (resourceArmMySqlServerRead P N client) d log).1.1 = Panicked).
Proof.
  split; [reflexivity|]. split.
  - intros [days geo mb grow]. eexists. split; [reflexivity|]. simpl.
    destruct mb, days; repeat split; by simplify_map_eq.
  - intros client d log id resp props HP HG Hprops Hsp.
    destruct (Read_run client d log id resp None HP HG) as (_ & _ & _ & R4 & _).
    destruct (R4 props) as [d' Hr]; try done. by rewrite Hr.
Qed.

(** C10. [resourceArmMySqlServerRead] stores
    [public_network_access_enabled] as true for every wire value other than
    the constant Disabled, the empty (absent) value and unknown values
    included, while every create payload carries Enabled for true and
    Disabled for false. *)
Theorem public_network_access_asymmetry :
  (∀ client d log id resp props sp,
      P (Id d) = inl id →
      Get client log (ResourceGroup id) (default EmptyString (Path id !! "servers"))
        = (resp, None) →
      Server_Properties resp = Some props →
      Properties_StorageProfile props = Some sp →
      let d' := (run (resourceArmMySqlServerRead P N client) d log).1.2 in
      attrs d' !! "public_network_access_enabled"
        = Some (ABool (negb (String.eqb (PublicNetworkAccess props) "Disabled")))
      ∧ (PublicNetworkAccess props ≠ "Disabled" →
         GetBool (attrs d') "public_network_access_enabled" = true)
      ∧ (PublicNetworkAccess props = EmptyString →
         GetBool (attrs d') "public_network_access_enabled" = true))
  ∧ (∀ client imp d log rg n p,
      CallCreate rg n p ∈ (run (resourceArmMySqlServerCreate P N imp client) d log).2 →
      CallCreate rg n p ∉ log →
      ∃ props,
        ForCreate_Properties p = Some props
        ∧ Create_PublicNetworkAccess props
          = if GetBool (attrs d) "public_network_access_enabled"
            then "Enabled" else "Disabled").
Proof.
  split.
  - intros client d log id resp props sp HP HG Hprops Hsp d'.
    destruct (Read_run client d log id resp None HP HG) as (_ & _ & _ & _ & R5).
    destruct (R5 props sp) as (d1 & Hr & _ & _ & Hpub); try done.
    subst d'. rewrite Hr. simpl. unfold GetBool. rewrite Hpub.
    split; [done|]. split.
    + intros Hne%String.eqb_neq.
      unfold PublicNetworkAccessEnumDisabled. by rewrite Hne.
    + by intros ->.
  - intros client imp d log rg n p Hin Hnew.
    apply Create_payload in Hin as [?|(props & sp & ? & _ & _ & ?)]; [done|].
    by exists props.
Qed.

(** ** The Relay identifiers *)

(** C8. [ParseHybridConnectionID] pops the [hybridConnections] segment and
    then the [namespaces] segment, each once; [ParseNamespaceID] pops the
    [namespaces] segment. A segment that is absent is an error naming it,
    the first absent one in the order of the pops. Segments that remain
    after the pops are another error. Every error comes with a nil
    identity, and an identity comes with no error: it holds the resource
    group and the popped names, and the path had no other segment. *)
Theorem Parse_relay_ids input :
  let hc := ParseHybridConnectionID P input in
  let ns := ParseNamespaceID P input in
  (is_Some hc.2 ↔ hc.1 = None) ∧ (is_Some ns.2 ↔ ns.1 = None)
  ∧ (∀ msg, P input = inr msg →
       hc = (None, Some (ErrUnableToParseHybridConnection input (ParseFailure msg)))
       ∧ ns = (None, Some (ErrUnableToParseNamespace input (ParseFailure msg))))
  ∧ (∀ id, P input = inl id →
       (Path id !! "hybridConnections" = None →
          hc = (None, Some (ErrMissingElement "hybridConnections")))
       ∧ (is_Some (Path id !! "hybridConnections") →
          Path id !! "namespaces" = None →
          hc = (None, Some (ErrMissingElement "namespaces")))
       ∧ (Path id !! "namespaces" = None →
          ns = (None, Some (ErrMissingElement "namespaces")))
       ∧ (∀ name namespaceName,
            Path id !! "hybridConnections" = Some name →
            Path id !! "namespaces" = Some namespaceName →
            hc = if bool_decide (delete "namespaces"
                                   (delete "hybridConnections" (Path id)) = ∅)
                 then (Some {| HC_ResourceGroup := ResourceGroup id;
                               HC_Name := name;
                               HC_NamespaceName := namespaceName |}, None)
                 else (None, Some (ErrMoreSegments input)))
       ∧ (∀ name,
            Path id !! "namespaces" = Some name →
            ns = if bool_decide (delete "namespaces" (Path id) = ∅)
                 then (Some {| NS_ResourceGroup := ResourceGroup id;
                               NS_Name := name |}, None)
                 else (None, Some (ErrMoreSegments input))))
  ∧ (∀ name sourceId, ErrMissingElement name ≠ ErrMoreSegments sourceId).
Proof.
  intros hc ns. subst hc ns.
  unfold ParseHybridConnectionID, ParseNamespaceID, PopSegment,
    ValidateNoEmptySegments.
  destruct (P input) as [id|msg]; simpl.
  - split; [|split; [|split; [done|split; [|done]]]].
    + destruct (Path id !! "hybridConnections") as [name|] eqn:Hh; simpl;
        [|split; [done|by eauto]].
      destruct (delete "hybridConnections" (Path id) !! "namespaces"); simpl;
        [|split; [done|by eauto]].
      case_bool_decide; simpl; (split; [intros [? ?]|]; by eauto).
    + destruct (Path id !! "namespaces") as [name|] eqn:Hn; simpl;
        [|split; [done|by eauto]].
      case_bool_decide; simpl; (split; [intros [? ?]|]; by eauto).
    + intros ? [= <-]. repeat split.
      * by intros ->.
      * intros [name ->] Hn. simpl. by rewrite lookup_delete_ne, Hn.
      * by intros ->.
      * intros name namespaceName -> Hn. simpl.
        rewrite lookup_delete_ne, Hn by done. simpl. by case_bool_decide.
      * intros name ->. simpl. by case_bool_decide.
  - split; [split; [done|by eauto]|]. split; [split; [done|by eauto]|].
    split; [by intros ? [= <-]|]. split; [done|done].
Qed.

End LifecycleProperties.

(** ** The properties on the sample remote *)

Lemma storage_profile_round_trip_witness :
  ∃ declared wire flat mb days geo grow,
    GetList (Sample.config "GP_Gen5_4" 5120) "storage_profile" = [declared]
    ∧ declared !! "storage_mb" = Some (VInt mb)
    ∧ declared !! "backup_retention_days" = Some (VInt days)
    ∧ declared !! "geo_redundant_backup" = Some (VString geo)
    ∧ declared !! "auto_grow" = Some (VString grow)
    ∧ expandMySQLStorageProfile (Sample.config "GP_Gen5_4" 5120) = Ok wire
    ∧ flattenMySQLStorageProfile (Some wire) = Ok [flat]
    ∧ flat !! "storage_mb" = Some (VInt32 mb)
    ∧ flat !! "backup_retention_days" = Some (VInt32 days)
    ∧ flat !! "geo_redundant_backup" = Some (VString geo)
    ∧ flat !! "auto_grow" = Some (VString grow)
    ∧ (∀ k, is_Some (flat !! k) → (as_schema_int <$> flat) !! k = declared !! k).
Proof.
  apply (storage_profile_round_trip (Sample.config "GP_Gen5_4" 5120)).
  vm_compute. reflexivity.
Defined.

(** Outside the range of the schema the integers do not survive: a
    [storage_mb] of 2^32 + 5120 is sent as 5120. The validation rejects
    such a configuration. *)
Example storage_mb_wraps :
  match expandMySQLStorageProfile (Sample.config "GP_Gen5_4" 4294972416) with
  | Ok wire => StorageMB wire = Some 5120
  | Panic => False
  end
  ∧ Validator (Sample.config "GP_Gen5_4" 4294972416) = false.
Proof. split; vm_compute; reflexivity. Qed.

Lemma expandServerSkuName_spec_witness :
  ∃ e, expandServerSkuName "GP_Gen5_four" = (None, Some e).
Proof.
  destruct expandServerSkuName_spec as (_ & _ & _ & _ & _ & _ & H & _).
  apply (H "GP_Gen5_four" "four"); vm_compute; reflexivity.
Defined.

Lemma CustomizeDiff_spec_witness :
  CustomizeDiff (Sample.config "B_Gen5_2" 2097152) = Some ErrBasicTierStorage.
Proof.
  apply (proj1 CustomizeDiff_spec (Sample.config "B_Gen5_2" 2097152) "Gen5" ["2"]);
    vm_compute; reflexivity.
Defined.

(** C3 in its first form, where a not-found response to the delete
    submission counts as success, does not hold: on a remote that answers
    the submission with a not-found response, the delete returns an
    error. *)
Lemma Delete_not_found_is_an_error :
  let future := {| FutureResponse := Some 404; WaitForCompletionRef := None |} in
  let r := run (resourceArmMySqlServerDelete Sample.parse Sample.remote)
             Sample.known_resource [] in
  Sample.parse (Id Sample.known_resource) = inl Sample.server_rid
  ∧ Delete Sample.remote [] "rg1" "db1"
    = (future, Some (RemoteFailure "ResourceNotFound"))
  ∧ ResponseWasNotFound (FutureResponse future) = true
  ∧ r.1.1 = Returned (Some (ErrDeleting "db1" "rg1" (RemoteFailure "ResourceNotFound")))
  ∧ r.1.1 ≠ Returned None.
Proof.
  vm_compute. repeat split; discriminate.
Qed.

Lemma Delete_surfaces_every_failure_witness :
  run (resourceArmMySqlServerDelete Sample.parse Sample.remote)
    Sample.known_resource []
  = (Returned (Some (ErrDeleting "db1" "rg1" (RemoteFailure "ResourceNotFound"))),
     Sample.known_resource, [CallDelete "rg1" "db1"]).
Proof.
  apply (Delete_surfaces_every_failure Sample.parse Sample.remote
           Sample.known_resource [] Sample.server_rid
           {| FutureResponse := Some 404; WaitForCompletionRef := None |}
           (Some (RemoteFailure "ResourceNotFound")));
    vm_compute; reflexivity.
Defined.

Lemma Create_failure_records_no_identity_witness :
  (run (resourceArmMySqlServerCreate Sample.parse Sample.normalize true Sample.remote)
     Sample.new_resource [Sample.create_call]).1.2 = Sample.new_resource.
Proof.
  apply (proj1 (Create_failure_records_no_identity Sample.parse Sample.normalize
                  Sample.remote true Sample.new_resource [Sample.create_call])
           (ImportAsExistsError "azurerm_mysql_server" Sample.server_id));
    vm_compute; reflexivity.
Defined.

(** An error of the read that follows the recording of the ID is outside
    C4: the create returns it with the ID recorded. *)
Example Create_read_back_failure_keeps_identity :
  let r := run (resourceArmMySqlServerCreate Sample.parse Sample.normalize false
                  Sample.flaky) Sample.new_resource [] in
  r.1.1 = Returned (Some (ErrReadRequest "db1" "rg1" (RemoteFailure "InternalServerError")))
  ∧ Id r.1.2 = Sample.server_id.
Proof. split; vm_compute; reflexivity. Qed.

Lemma Create_import_check_witness :
  run (resourceArmMySqlServerCreate Sample.parse Sample.normalize true Sample.remote)
    Sample.new_resource [Sample.create_call]
  = (Returned (Some (ImportAsExistsError "azurerm_mysql_server" Sample.server_id)),
     Sample.new_resource, [Sample.create_call; CallGet "rg1" "db1"]).
Proof.
  assert (IsNewResource Sample.new_resource = true) as Hnew by reflexivity.
  assert (Get Sample.remote [Sample.create_call]
            (GetString (attrs Sample.new_resource) "resource_group_name")
            (GetString (attrs Sample.new_resource) "name")
          = (Sample.the_server, None)) as Hget by (vm_compute; reflexivity).
  apply (proj1 (Create_import_check Sample.parse Sample.normalize Sample.remote
                  Sample.new_resource [Sample.create_call] Sample.the_server None
                  Hnew Hget) Sample.server_id);
    [vm_compute; reflexivity | discriminate | left; reflexivity].
Defined.

(** On a remote that fails every call, the presence check fails the create,
    and nothing but the read was submitted. *)
Example Create_presence_check_failure :
  run (resourceArmMySqlServerCreate Sample.parse Sample.normalize true Sample.broken)
    Sample.new_resource []
  = (Returned (Some (ErrCheckingPresence "db1" "rg1"
                       (RemoteFailure "InternalServerError"))),
     Sample.new_resource, [CallGet "rg1" "db1"]).
Proof. vm_compute. reflexivity. Qed.

(** On the sample remote the create goes through: the create is submitted
    after the presence check, the ID of the re-read is recorded, and the
    store holds the endpoint the remote generated. *)
Example Create_succeeds :
  let r := run (resourceArmMySqlServerCreate Sample.parse Sample.normalize true
                  Sample.remote) Sample.new_resource [] in
  r.1.1 = Returned None
  ∧ Id r.1.2 = Sample.server_id
  ∧ GetString (attrs r.1.2) "fqdn" = "db1.mysql.database.azure.com"
  ∧ List.map (fun c => match c with CallCreate _ _ _ => true | _ => false end) r.2
    = [false; true; false; false].
Proof. vm_compute. repeat split. Qed.

Lemma Read_spec_witness :
  run (resourceArmMySqlServerRead Sample.parse Sample.normalize Sample.remote)
    Sample.known_resource []
  = (Returned None, SetId Sample.known_resource EmptyString, [CallGet "rg1" "db1"]).
Proof.
  assert (Sample.parse (Id Sample.known_resource) = inl Sample.server_rid) as HP
    by (vm_compute; reflexivity).
  assert (Get Sample.remote [] (ResourceGroup Sample.server_rid)
            (default EmptyString (Path Sample.server_rid !! "servers"))
          = (Sample.no_server 404, Some (RemoteFailure "ResourceNotFound"))) as HG
    by (vm_compute; reflexivity).
  apply (proj1 (Read_spec Sample.parse Sample.normalize Sample.remote
                  Sample.known_resource [] Sample.server_rid _ _ HP HG)
           (RemoteFailure "ResourceNotFound"));
    vm_compute; reflexivity.
Defined.

Lemma decode_is_partial_witness :
  (run (resourceArmMySqlServerRead Sample.parse Sample.normalize Sample.bare)
     Sample.known_resource []).1.1 = Panicked.
Proof.
  destruct (decode_is_partial Sample.parse Sample.normalize) as (_ & _ & H).
  eapply (H Sample.bare Sample.known_resource [] Sample.server_rid);
    vm_compute; reflexivity.
Defined.

Lemma public_network_access_asymmetry_witness :
  GetBool
    (attrs (run (resourceArmMySqlServerRead Sample.parse Sample.normalize Sample.remote)
              Sample.known_resource [Sample.create_call]).1.2)
    "public_network_access_enabled" = true.
Proof.
  destruct (public_network_access_asymmetry Sample.parse Sample.normalize) as [H _].
  eapply (H Sample.remote Sample.known_resource [Sample.create_call] Sample.server_rid);
    vm_compute; reflexivity.
Defined.

Lemma Parse_relay_ids_witness :
  ParseHybridConnectionID Sample.parse Sample.hybrid_connection_id
  = (Some {| HC_ResourceGroup := "rg1"; HC_Name := "hc1"; HC_NamespaceName := "ns1" |},
     None).
Proof.
  destruct (Parse_relay_ids Sample.parse Sample.hybrid_connection_id)
    as (_ & _ & _ & H & _).
  assert (Sample.parse Sample.hybrid_connection_id = inl Sample.hybrid_connection_rid)
    as HP by (vm_compute; reflexivity).
  destruct (H _ HP) as (_ & _ & _ & H4 & _).
  rewrite (H4 "hc1" "ns1") by (vm_compute; reflexivity).
  vm_compute. reflexivity.
Defined.

(** * Further properties *)

(** ** The SKU name and the storage profile *)

Lemma int32_range x : in_int32 (int32 x).
Proof.
  unfold in_int32, int32.
  pose proof (Z.mod_pos_bound (x + 2 ^ 31) (2 ^ 32)). lia.
Qed.

Lemma int32_period x k : int32 (x + k * 2 ^ 32) = int32 x.
Proof.
  unfold int32. replace (x + k * 2 ^ 32 + 2 ^ 31) with (x + 2 ^ 31 + k * 2 ^ 32) by lia.
  by rewrite Z.mod_add.
Qed.

Lemma HasPrefix_B s :
  HasPrefix s "B_" = true ↔ ∃ p ps, Split s "_" = "B" :: p :: ps.
Proof.
  split.
  - unfold HasPrefix. destruct s as [|a [|b s]]; cbn [String.prefix];
      try discriminate.
    { by destruct (ascii_dec "B" a). }
    destruct (ascii_dec "B" a) as [<-|]; [|discriminate].
    destruct (ascii_dec "_" b) as [<-|]; [|discriminate].
    intros _. cbn [Split]. change (Ascii.eqb "B" "_") with false.
    change (Ascii.eqb "_" "_") with true. cbv iota.
    destruct (Split s "_") as [|p ps] eqn:Hs.
    { by destruct (Split_nonempty s "_"). }
    by exists p, ps.
  - intros (p & ps & Hs). apply Split_second in Hs as [rest ->].
    unfold HasPrefix. simpl. by destruct rest.
Qed.

(** X1. What [expandServerSkuName] returns is either a SKU and no error or
    no SKU and an error. A SKU it returns carries the name it was given,
    one of the three tiers, a family, and a capacity that fits in 32 bits. *)
Theorem expandServerSkuName_result s :
  match expandServerSkuName s with
  | (Some sku, e) =>
      e = None
      ∧ Sku_Name sku = Some s
      ∧ In (Sku_Tier sku) [Basic; GeneralPurpose; MemoryOptimized]
      ∧ is_Some (Sku_Family sku)
      ∧ ∃ c, Sku_Capacity sku = Some c ∧ in_int32 c
  | (None, e) => is_Some e
  end.
Proof.
  unfold expandServerSkuName.
  destruct (Split s "_") as [|p0 [|p1 [|p2 [|p3 ps]]]]; try by eauto.
  destruct (String.eqb p0 "B"); [|destruct (String.eqb p0 "GP");
    [|destruct (String.eqb p0 "MO"); [|by eauto]]];
    (destruct (Atoi p2) as [c|]; [|by eauto]); simpl;
    repeat split; eauto using int32_range.
Qed.

(** X2. Every SKU name the schema accepts expands without error, to the
    tier its prefix stands for, the family Gen4 or Gen5, and the capacity
    written in the name, between 1 and 64. *)
Theorem schema_sku_names_expand s :
  StringInSlice sku_names false s = true →
  ∃ tier family capacity,
    expandServerSkuName s
    = (Some {| Sku_Name := Some s; Sku_Tier := tier;
               Sku_Capacity := Some capacity; Sku_Family := Some family |}, None)
    ∧ In (HasPrefix s "B_", HasPrefix s "GP_", HasPrefix s "MO_", tier)
         [ (true, false, false, Basic); (false, true, false, GeneralPurpose);
           (false, false, true, MemoryOptimized) ]
    ∧ In family ["Gen4"; "Gen5"]
    ∧ 1 <= capacity <= 64
    ∧ Atoi (default EmptyString (last (Split s "_"))) = Some capacity.
Proof.
  unfold StringInSlice. intros H.
  apply existsb_exists in H as (str & Hin & Heq).
  rewrite orb_false_r in Heq. apply String.eqb_eq in Heq. subst str.
  unfold sku_names in Hin. simpl in Hin.
  repeat (destruct Hin as [<-|Hin];
          [eexists _, _, _; split; [vm_compute; reflexivity|];
           vm_compute; intuition congruence|]).
  destruct Hin.
Qed.

(** X3. For a SKU name that expands, [CustomizeDiff] returns its violation
    exactly when the expanded tier is Basic and [storage_mb] exceeds
    1,048,576; a size of exactly 1,048,576 passes. *)
Theorem CustomizeDiff_agrees_with_tier (d : gmap string attr) sku :
  expandServerSkuName (GetString d "sku_name") = (Some sku, None) →
  (CustomizeDiff d = Some ErrBasicTierStorage
   ↔ Sku_Tier sku = Basic ∧ 1048576 < GetNestedInt d "storage_profile" 0 "storage_mb")
  ∧ (CustomizeDiff d = None
     ↔ Sku_Tier sku ≠ Basic ∨ GetNestedInt d "storage_profile" 0 "storage_mb" <= 1048576).
Proof.
  intros Hsku.
  assert (HasPrefix (GetString d "sku_name") "B_" = true ↔ Sku_Tier sku = Basic) as Htier.
  { rewrite HasPrefix_B. revert Hsku. unfold expandServerSkuName.
    destruct (Split (GetString d "sku_name") "_") as [|p0 [|p1 [|p2 [|p3 ps]]]];
      try discriminate.
    destruct (String.eqb p0 "B") eqn:HB.
    - apply String.eqb_eq in HB as ->.
      destruct (Atoi p2); [|discriminate]. intros [= <-]. simpl.
      split; [done | by eauto].
    - apply String.eqb_neq in HB.
      destruct (String.eqb p0 "GP"); [|destruct (String.eqb p0 "MO"); [|discriminate]];
        (destruct (Atoi p2); [|discriminate]); intros [= <-]; simpl;
        (split; [intros (? & ? & [= ? _]); congruence | discriminate]). }
  unfold CustomizeDiff.
  destruct (HasPrefix (GetString d "sku_name") "B_") eqn:Hp;
    destruct (Z.ltb_spec 1048576 (GetNestedInt d "storage_profile" 0 "storage_mb"));
    simpl.
  - assert (Sku_Tier sku = Basic) by by apply Htier.
    intuition (try congruence; try lia).
  - intuition (try congruence; try lia).
  - assert (Sku_Tier sku ≠ Basic) by (intros ?%Htier; discriminate).
    intuition (try congruence; try lia).
  - intuition (try congruence; try lia).
Qed.

(** X4. [expandMySQLStorageProfile] returns a profile exactly when the
    store holds at least one storage profile whose first element has the
    two integers and the two strings under their keys; on an empty list,
    on a missing key and on a value of another type it panics. Elements
    after the first are not read. *)
Theorem expandMySQLStorageProfile_defined (d : gmap string attr) :
  ((∃ wire, expandMySQLStorageProfile d = Ok wire)
   ↔ ∃ m rest mb days geo grow,
       GetList d "storage_profile" = m :: rest
       ∧ m !! "storage_mb" = Some (VInt mb)
       ∧ m !! "backup_retention_days" = Some (VInt days)
       ∧ m !! "geo_redundant_backup" = Some (VString geo)
       ∧ m !! "auto_grow" = Some (VString grow))
  ∧ (GetList d "storage_profile" = [] → expandMySQLStorageProfile d = Panic)
  ∧ (∀ d' : gmap string attr,
       head (GetList d' "storage_profile") = head (GetList d "storage_profile") →
       expandMySQLStorageProfile d' = expandMySQLStorageProfile d).
Proof.
  unfold expandMySQLStorageProfile. repeat split.
  - intros [wire H]. destruct (GetList d "storage_profile") as [|m rest];
      [discriminate|]. simpl in H.
    destruct (m !! "backup_retention_days") as [[days| | |]|] eqn:?; try discriminate.
    destruct (m !! "geo_redundant_backup") as [[| |geo|]|] eqn:?; try discriminate.
    destruct (m !! "storage_mb") as [[mb| | |]|] eqn:?; try discriminate.
    destruct (m !! "auto_grow") as [[| |grow|]|] eqn:?; try discriminate.
    by exists m, rest, mb, days, geo, grow.
  - intros (m & rest & mb & days & geo & grow & -> & Hmb & Hdays & Hgeo & Hgrow).
    simpl. rewrite Hdays, Hgeo, Hmb, Hgrow. simpl. by eexists.
  - by intros ->.
  - intros d' Hhd.
    destruct (GetList d' "storage_profile"), (GetList d "storage_profile");
      simpl in Hhd; by simplify_eq.
Qed.

(** X5. The profile [expandMySQLStorageProfile] returns has both integer
    pointers set, to values that fit in 32 bits: a declared integer
    outside that range is wrapped, so that a [storage_mb] larger by a
    multiple of 2^32 gives the same profile. *)
Theorem expandMySQLStorageProfile_wraps (d : gmap string attr) wire :
  expandMySQLStorageProfile d = Ok wire →
  (∃ mb days, StorageMB wire = Some mb ∧ BackupRetentionDays wire = Some days
              ∧ in_int32 mb ∧ in_int32 days)
  ∧ (∀ m rest mb k,
       GetList d "storage_profile" = m :: rest →
       m !! "storage_mb" = Some (VInt mb) →
       expandMySQLStorageProfile
         (<["storage_profile" :=
              AList (<["storage_mb" := VInt (mb + k * 2 ^ 32)]> m :: rest)]> d)
       = Ok wire).
Proof.
  unfold expandMySQLStorageProfile. intros H.
  destruct (GetList d "storage_profile") as [|m rest] eqn:Hl; [discriminate|].
  simpl in H.
  destruct (m !! "backup_retention_days") as [[days| | |]|] eqn:Hdays; try discriminate.
  destruct (m !! "geo_redundant_backup") as [[| |geo|]|] eqn:Hgeo; try discriminate.
  destruct (m !! "storage_mb") as [[mb| | |]|] eqn:Hmb; try discriminate.
  destruct (m !! "auto_grow") as [[| |grow|]|] eqn:Hgrow; try discriminate.
  simpl in H. injection H as <-. split.
  - exists (int32 mb), (int32 days). eauto using int32_range.
  - intros m' rest' mb' k [= <- <-] Hmb'. rewrite Hmb in Hmb'. injection Hmb' as <-.
    unfold GetList. rewrite lookup_insert_eq. simpl.
    rewrite lookup_insert_eq, !lookup_insert_ne by done.
    rewrite Hdays, Hgeo, Hgrow. simpl. by rewrite int32_period.
Qed.

(** X6. Decoding, then encoding: when the storage profile of the payload
    has both integers, storing what [flattenMySQLStorageProfile] returns
    for it and expanding the store gives the profile back. *)
Theorem expand_after_flatten (d : ResourceData) sp mb days :
  StorageMB sp = Some mb → BackupRetentionDays sp = Some days →
  in_int32 mb → in_int32 days →
  ∃ flat,
    flattenMySQLStorageProfile (Some sp) = Ok flat
    ∧ expandMySQLStorageProfile (attrs (SetList d "storage_profile" flat)) = Ok sp.
Proof.
  destruct sp as [days' geo mb' grow]. simpl. intros -> -> Hmb Hdays.
  eexists. split; [reflexivity|].
  unfold expandMySQLStorageProfile, SetList, GetList. simpl.
  rewrite lookup_insert_eq. simpl.
  rewrite !lookup_fmap.
  repeat (rewrite lookup_insert_eq || rewrite lookup_insert_ne by done). simpl.
  by rewrite !int32_id.
Qed.

(** ** Create, read and delete *)

Section MoreLifecycleProperties.

Variable P : string → ResourceID + string.
Variable N : string → string.

Ltac run_monad :=
  unfold run, skip, tags_FlattenAndSet, d_SetList, d_SetId, d_Set,
    d_SetStringPtr, d_attrs, d_Id, d_IsNewResource, d_update,
    client_Get, client_Create, client_Delete, lift, deref,
    bind, pure, return_ in *;
  simpl in *.

Lemma Read_calls_shape client d log out d' calls' :
  run (resourceArmMySqlServerRead P N client) d log = (out, d', calls') →
  calls' = log ∨ ∃ g n, calls' = (log ++ [CallGet g n])%list.
Proof.
  unfold resourceArmMySqlServerRead. run_monad.
  intros H. repeat case_match; simplify_eq; simpl; by eauto.
Qed.

Lemma Read_run_exits client d log out d' calls' :
  run (resourceArmMySqlServerRead P N client) d log = (out, d', calls') →
  match out with
  | Returned (Some e) => before_identity e = false
  | _ => True
  end.
Proof.
  unfold run.
  destruct (resourceArmMySqlServerRead P N client {| data := d; calls := log |})
    as [st w] eqn:H.
  apply Read_exits in H. destruct st as [[]|[e|]|]; by intros [= <- _ _].
Qed.

(** X7. An ID that the parser rejects stops [resourceArmMySqlServerRead]
    and [resourceArmMySqlServerDelete] before any call to the remote: both
    return the error of the parser and leave the store as it was. *)
Theorem unparsable_ID_stops_Read_and_Delete client d log msg :
  P (Id d) = inr msg →
  run (resourceArmMySqlServerRead P N client) d log
    = (Returned (Some (ParseFailure msg)), d, log)
  ∧ run (resourceArmMySqlServerDelete P client) d log
    = (Returned (Some (ParseFailure msg)), d, log).
Proof.
  intros HP. unfold resourceArmMySqlServerRead, resourceArmMySqlServerDelete.
  run_monad. by rewrite HP.
Qed.

(** X8. [resourceArmMySqlServerDelete] never panics and never changes the
    store, the ID included, and it submits nothing but at most one delete,
    for the resource group of the ID and its [servers] segment. *)
Theorem Delete_keeps_the_store client d log :
  let r := run (resourceArmMySqlServerDelete P client) d log in
  r.1.1 ≠ Panicked
  ∧ r.1.2 = d
  ∧ (r.2 = log
     ∨ ∃ id, P (Id d) = inl id
             ∧ r.2 = (log ++ [CallDelete (ResourceGroup id)
                                (default EmptyString (Path id !! "servers"))])%list).
Proof.
  unfold resourceArmMySqlServerDelete. run_monad.
  destruct (P (Id d)) as [id|msg]; simpl; [|by auto].
  destruct (Delete client log _ _) as [future [e|]]; simpl;
    [|destruct (WaitForCompletionRef future); simpl];
    (split; [done|]; split; [done|]; right; by exists id).
Qed.

(** X9. Whatever the remote answers, even when it panics half-way,
    [resourceArmMySqlServerRead] writes no attribute but the eleven it
    decodes (the password is never among them), keeps the new-resource
    flag, and either keeps the ID or clears it and returns nil. It submits
    at most one read and nothing else. *)
Theorem Read_writes_only_what_it_decodes client d log :
  let r := run (resourceArmMySqlServerRead P N client) d log in
  (∀ k, ¬ In k read_attributes → attrs r.1.2 !! k = attrs d !! k)
  ∧ IsNewResource r.1.2 = IsNewResource d
  ∧ (Id r.1.2 = Id d ∨ (r.1.2 = SetId d EmptyString ∧ r.1.1 = Returned None))
  ∧ (r.2 = log
     ∨ ∃ id, P (Id d) = inl id
             ∧ r.2 = (log ++ [CallGet (ResourceGroup id)
                                (default EmptyString (Path id !! "servers"))])%list).
Proof.
  unfold resourceArmMySqlServerRead. run_monad.
  destruct (P (Id d)) as [id|msg]; simpl; [|by auto].
  destruct (Get client log _ _) as [resp [e|]]; simpl.
  { destruct (ResponseWasNotFound (Response resp)); simpl;
      (split; [done|]; split; [done|]; split; [by auto|]; right; by exists id). }
  split.
  - intros k Hk. unfold read_attributes in Hk. simpl in Hk.
    assert ("name" ≠ k ∧ "resource_group_name" ≠ k ∧ "location" ≠ k
            ∧ "sku_name" ≠ k ∧ "administrator_login" ≠ k ∧ "version" ≠ k
            ∧ "ssl_enforcement" ≠ k ∧ "public_network_access_enabled" ≠ k
            ∧ "storage_profile" ≠ k ∧ "fqdn" ≠ k ∧ "tags" ≠ k)
      as (? & ? & ? & ? & ? & ? & ? & ? & ? & ? & ?) by tauto.
    clear Hk.
    destruct (Name resp), (Location resp), (Server_Sku resp) as [[[?|] ? ? ?]|],
      (Server_Properties resp) as [[[?|] ? ? [?|] [?|] ?]|];
      simpl;
      repeat first [ rewrite lookup_insert_ne by assumption
                   | rewrite lookup_delete_ne by assumption ];
      reflexivity.
  - destruct (Name resp), (Location resp), (Server_Sku resp) as [[[?|] ? ? ?]|],
      (Server_Properties resp) as [[[?|] ? ? [?|] [?|] ?]|];
      simpl; (split; [done|]; split; [by left|]; right; by exists id).
Qed.

Lemma Read_leaves_decoded client d log id resp props sp :
  P (Id d) = inl id →
  Get client log (ResourceGroup id) (default EmptyString (Path id !! "servers"))
    = (resp, None) →
  Server_Properties resp = Some props →
  Properties_StorageProfile props = Some sp →
  run (resourceArmMySqlServerRead P N client) d log
  = (Returned None, decoded N id resp props sp d,
     (log ++ [CallGet (ResourceGroup id)
                (default EmptyString (Path id !! "servers"))])%list).
Proof.
  intros HP HG Hprops Hsp.
  unfold resourceArmMySqlServerRead, decoded. run_monad. rewrite HP. simpl.
  rewrite HG, Hprops. simpl. rewrite Hsp. simpl.
  by destruct (Location resp), (Server_Sku resp).
Qed.

Lemma attrs_SetStringPtr d k p k' :
  attrs (SetStringPtr d k p) !! k'
  = if decide (k = k') then AString <$> p else attrs d !! k'.
Proof.
  destruct p; simpl; [rewrite lookup_insert|rewrite lookup_delete];
    by case_decide.
Qed.

Lemma attrs_Set_ d k v k' :
  attrs (Set_ d k v) !! k' = if decide (k = k') then Some v else attrs d !! k'.
Proof. simpl. by rewrite lookup_insert. Qed.

Lemma attrs_decoded id resp props sp d k :
  attrs (decoded N id resp props sp d) !! k
  = if decide (k = "tags") then Some (AMap (Server_Tags resp))
    else if decide (k = "fqdn") then AString <$> FullyQualifiedDomainName props
    else if decide (k = "storage_profile")
      then match flattenMySQLStorageProfile (Some sp) with
           | Ok flat => Some (AList (List.map (fmap as_schema_int) flat))
           | Panic => attrs d !! k
           end
    else if decide (k = "public_network_access_enabled")
      then Some (ABool (negb (String.eqb (PublicNetworkAccess props)
                                         PublicNetworkAccessEnumDisabled)))
    else if decide (k = "ssl_enforcement") then Some (AString (SslEnforcement props))
    else if decide (k = "version") then Some (AString (Version props))
    else if decide (k = "administrator_login")
      then AString <$> AdministratorLogin props
    else if decide (k = "sku_name")
      then match Server_Sku resp with
           | Some sku => AString <$> Sku_Name sku
           | None => attrs d !! k
           end
    else if decide (k = "location")
      then match Location resp with
           | Some location => Some (AString (N location))
           | None => attrs d !! k
           end
    else if decide (k = "resource_group_name")
      then Some (AString (ResourceGroup id))
    else if decide (k = "name") then AString <$> Name resp
    else attrs d !! k.
Proof.
  unfold decoded. cbn [flattenMySQLStorageProfile].
  destruct (Location resp), (Server_Sku resp); unfold SetList;
    repeat first [ rewrite attrs_Set_ | rewrite attrs_SetStringPtr ];
    repeat (case_decide; simplify_eq; try reflexivity).
Qed.

(** X10. What [resourceArmMySqlServerRead] stores on a complete payload:
    the resource group comes from the ID, not from the payload; the
    location is normalised; [location] and [sku_name] keep their value
    when the payload has none, while [name], [administrator_login] and
    [fqdn] lose theirs; the storage profile is the flattened one with the
    integers of the schema; the tags are those of the payload. *)
Theorem Read_decodes client d log id resp props sp :
  P (Id d) = inl id →
  Get client log (ResourceGroup id) (default EmptyString (Path id !! "servers"))
    = (resp, None) →
  Server_Properties resp = Some props →
  Properties_StorageProfile props = Some sp →
  let a := attrs (run (resourceArmMySqlServerRead P N client) d log).1.2 in
  a !! "name" = AString <$> Name resp
  ∧ a !! "resource_group_name" = Some (AString (ResourceGroup id))
  ∧ a !! "location" = match Location resp with
                      | Some location => Some (AString (N location))
                      | None => attrs d !! "location"
                      end
  ∧ a !! "sku_name" = match Server_Sku resp with
                      | Some sku => AString <$> Sku_Name sku
                      | None => attrs d !! "sku_name"
                      end
  ∧ a !! "administrator_login" = AString <$> AdministratorLogin props
  ∧ a !! "version" = Some (AString (Version props))
  ∧ a !! "ssl_enforcement" = Some (AString (SslEnforcement props))
  ∧ (∃ flat, flattenMySQLStorageProfile (Some sp) = Ok [flat]
             ∧ a !! "storage_profile" = Some (AList [as_schema_int <$> flat]))
  ∧ a !! "fqdn" = AString <$> FullyQualifiedDomainName props
  ∧ a !! "tags" = Some (AMap (Server_Tags resp)).
Proof.
  intros HP HG Hprops Hsp a. subst a.
  rewrite (Read_leaves_decoded _ _ _ _ _ _ _ HP HG Hprops Hsp). cbn [fst snd].
  rewrite !attrs_decoded. cbn [flattenMySQLStorageProfile].
  repeat split; try by repeat case_decide.
  eexists. split; [reflexivity|]. by repeat case_decide.
Qed.

(** X11. Reading again changes nothing: when the remote answers a second
    read as it answered a first one that succeeded, the store after the
    second read is the store after the first. *)
Theorem Read_is_stable client d log id resp :
  P (Id d) = inl id →
  let name := default EmptyString (Path id !! "servers") in
  let resourceGroup := ResourceGroup id in
  Get client log resourceGroup name = (resp, None) →
  Get client (log ++ [CallGet resourceGroup name]) resourceGroup name = (resp, None) →
  let first := run (resourceArmMySqlServerRead P N client) d log in
  let second := run (resourceArmMySqlServerRead P N client) first.1.2 first.2 in
  first.1.1 = Returned None →
  second.1.1 = Returned None ∧ second.1.2 = first.1.2.
Proof.
  intros HP name resourceGroup HG1 HG2 first second.
  subst first second name resourceGroup.
  destruct (Server_Properties resp) as [props|] eqn:Hprops.
  2: { destruct (Read_run P N client d log id resp None HP HG1) as (_ & _ & R3 & _).
       destruct R3 as [d' ->]; done. }
  destruct (Properties_StorageProfile props) as [sp|] eqn:Hsp.
  2: { destruct (Read_run P N client d log id resp None HP HG1) as (_ & _ & _ & R4 & _).
       destruct (R4 props) as [d' ->]; done. }
  rewrite (Read_leaves_decoded _ _ _ _ _ _ _ HP HG1 Hprops Hsp). cbn [fst snd].
  intros _.
  assert (Id (decoded N id resp props sp d) = Id d) as Hid.
  { unfold decoded. destruct (Location resp), (Server_Sku resp) as [[[?|] ? ? ?]|],
      (Name resp), (AdministratorLogin props), (FullyQualifiedDomainName props);
      reflexivity. }
  rewrite (Read_leaves_decoded client (decoded N id resp props sp d) _ id resp props sp)
    by (rewrite ?Hid; assumption).
  cbn [fst snd]. split; [reflexivity|].
  set (d1 := decoded N id resp props sp d).
  assert (Id (decoded N id resp props sp d1) = Id d1
          ∧ IsNewResource (decoded N id resp props sp d1) = IsNewResource d1) as [H1 H2].
  { unfold decoded. destruct (Location resp), (Server_Sku resp) as [[[?|] ? ? ?]|],
      (Name resp), (AdministratorLogin props), (FullyQualifiedDomainName props);
      by split. }
  assert (attrs (decoded N id resp props sp d1) = attrs d1) as H3.
  { apply map_eq. intros k. rewrite attrs_decoded. subst d1.
    rewrite !attrs_decoded.
    destruct (Location resp), (Server_Sku resp);
      repeat (case_decide; simplify_eq; try reflexivity). }
  destruct (decoded N id resp props sp d1), d1. simpl in *. by subst.
Qed.

Lemma Read_extends_calls client w st w' :
  resourceArmMySqlServerRead P N client w = (st, w') →
  ∃ rest, calls w' = (calls w ++ rest)%list.
Proof.
  unfold resourceArmMySqlServerRead. run_monad.
  intros H. repeat case_match; simplify_eq; simpl;
    first [ by exists [] ; rewrite app_nil_r | by eexists ].
Qed.



(** X13. The presence check decides nothing when it finds nothing. For a
    resource that is not new the create runs as with the toggle off; for a
    new one whose presence read returns no ID, without error or with a
    not-found response, it runs as with the toggle off after that read. *)
Theorem Create_import_check_passes client d log :
  let name := GetString (attrs d) "name" in
  let resourceGroup := GetString (attrs d) "resource_group_name" in
  (IsNewResource d = false →
   run (resourceArmMySqlServerCreate P N true client) d log
   = run (resourceArmMySqlServerCreate P N false client) d log)
  ∧ (∀ existing err,
       IsNewResource d = true →
       Get client log resourceGroup name = (existing, err) →
       err = None ∨ ResponseWasNotFound (Response existing) = true →
       ID existing = None ∨ ID existing = Some EmptyString →
       run (resourceArmMySqlServerCreate P N true client) d log
       = run (resourceArmMySqlServerCreate P N false client) d
           (log ++ [CallGet resourceGroup name])).
Proof.
  intros name resourceGroup. subst name resourceGroup. split.
  - intros Hnew. unfold run, resourceArmMySqlServerCreate.
    unfold bind at 1 2 3. unfold bind at 4 5 6.
    unfold d_attrs at 1, d_IsNewResource. unfold d_attrs at 2.
    cbv beta iota zeta. simpl. by rewrite Hnew.
  - intros existing err Hnew HG Herr Hid.
    unfold run, resourceArmMySqlServerCreate, import_check.
    unfold bind at 1 2 3 4 5 6. unfold bind at 7 8 9.
    unfold d_attrs at 1, d_IsNewResource, client_Get at 1. unfold d_attrs at 2.
    cbv beta iota zeta. simpl. rewrite Hnew. simpl. rewrite HG.
    destruct Herr as [->| ->]; destruct Hid as [->| ->]; try destruct err;
      reflexivity.
Qed.

(** X14. Once the create was submitted and polled without error and the
    re-read returned an ID, what the create does is what the read does on
    the store with that ID, after the create and the re-read. *)
Theorem Create_ends_with_Read client d log sku properties future read id :
  let name := GetString (attrs d) "name" in
  let resourceGroup := GetString (attrs d) "resource_group_name" in
  expandServerSkuName (GetString (attrs d) "sku_name") = (sku, None) →
  (create_properties (N (GetString (attrs d) "location"))
     (if negb (GetBool (attrs d) "public_network_access_enabled")
      then PublicNetworkAccessEnumDisabled else PublicNetworkAccessEnumEnabled)
     sku {| data := d; calls := log |}).1 = Next properties →
  Create client log resourceGroup name properties = (future, None) →
  WaitForCompletionRef future = None →
  Get client (log ++ [CallCreate resourceGroup name properties]) resourceGroup name
    = (read, None) →
  ID read = Some id →
  run (resourceArmMySqlServerCreate P N false client) d log
  = run (resourceArmMySqlServerRead P N client) (SetId d id)
      (log ++ [CallCreate resourceGroup name properties; CallGet resourceGroup name]).
Proof.
  intros name resourceGroup Hsku Hprops HC HW HG Hid.
  subst name resourceGroup.
  unfold run, resourceArmMySqlServerCreate.
  remember (resourceArmMySqlServerRead P N client) as rd eqn:Hrd.
  unfold create_properties in *. run_monad. rewrite Hsku. simpl.
  destruct (expandMySQLStorageProfile (attrs d)) as [sp|]; simpl in *;
    [|discriminate].
  injection Hprops as <-. rewrite HC. simpl. rewrite HW. simpl.
  rewrite HG. simpl. rewrite Hid. simpl. by rewrite <- app_assoc.
Qed.

(** The SKU names of the schema expand. *)
Lemma sku_names_expand s :
  StringInSlice sku_names false s = true →
  ∃ sku, expandServerSkuName s = (Some sku, None).
Proof.
  unfold StringInSlice. intros H.
  apply existsb_exists in H as (str & Hin & Heq).
  rewrite orb_false_r in Heq. apply String.eqb_eq in Heq. subst str.
  unfold sku_names in Hin. simpl in Hin.
  repeat (destruct Hin as [<-|Hin]; [eexists; vm_compute; reflexivity|]).
  destruct Hin.
Qed.

(** X15. A configuration that passed the validation never fails locally:
    without the presence check, the first thing the create does is to
    submit the create, with a payload that carries the normalised
    location, the expanded SKU and storage profile, the login and the
    password, the version, the SSL enforcement, the create mode Default,
    the public network access and the tags. *)
Theorem validated_configuration_is_submitted client d log :
  Validator (attrs d) = true →
  ∃ sku sp rest,
    expandServerSkuName (GetString (attrs d) "sku_name") = (Some sku, None)
    ∧ expandMySQLStorageProfile (attrs d) = Ok sp
    ∧ (run (resourceArmMySqlServerCreate P N false client) d log).2
      = (log ++
         CallCreate (GetString (attrs d) "resource_group_name")
           (GetString (attrs d) "name")
           {| ForCreate_Location := Some (N (GetString (attrs d) "location"));
              ForCreate_Properties := Some
                {| Create_AdministratorLogin :=
                     Some (GetString (attrs d) "administrator_login");
                   Create_AdministratorLoginPassword :=
                     Some (GetString (attrs d) "administrator_login_password");
                   Create_Version := GetString (attrs d) "version";
                   Create_SslEnforcement := GetString (attrs d) "ssl_enforcement";
                   Create_StorageProfile := Some sp;
                   Create_CreateMode := "Default";
                   Create_PublicNetworkAccess :=
                     if GetBool (attrs d) "public_network_access_enabled"
                     then "Enabled" else "Disabled" |};
              ForCreate_Sku := Some sku;
              ForCreate_Tags := GetMap (attrs d) "tags" |} :: rest)%list.
Proof.
  intros H. unfold Validator, validate_schema in H.
  apply andb_prop in H as [H _]. apply andb_prop in H as [H Hsp].
  apply andb_prop in H as [H _]. apply andb_prop in H as [Hsku _].
  apply sku_names_expand in Hsku as [sku Hsku].
  apply validate_storage_profile_inv in Hsp
    as (m & mb & days & geo & grow & Hl & Hmb & _ & Hdays & _ & Hgeo & Hgrow).
  destruct (flatten_expand (attrs d) m [] mb days geo grow Hl Hmb Hdays Hgeo Hgrow)
    as (sp & _ & Hexp & _).
  exists sku, sp.
  cut (∃ rest,
    (run (resourceArmMySqlServerCreate P N false client) d log).2
      = (log ++
         CallCreate (GetString (attrs d) "resource_group_name")
           (GetString (attrs d) "name")
           {| ForCreate_Location := Some (N (GetString (attrs d) "location"));
              ForCreate_Properties := Some
                {| Create_AdministratorLogin :=
                     Some (GetString (attrs d) "administrator_login");
                   Create_AdministratorLoginPassword :=
                     Some (GetString (attrs d) "administrator_login_password");
                   Create_Version := GetString (attrs d) "version";
                   Create_SslEnforcement := GetString (attrs d) "ssl_enforcement";
                   Create_StorageProfile := Some sp;
                   Create_CreateMode := "Default";
                   Create_PublicNetworkAccess :=
                     if GetBool (attrs d) "public_network_access_enabled"
                     then "Enabled" else "Disabled" |};
              ForCreate_Sku := Some sku;
              ForCreate_Tags := GetMap (attrs d) "tags" |} :: rest)%list).
  { intros [rest Hrest]. by exists rest. }
  unfold run, resourceArmMySqlServerCreate, create_properties.
  remember (resourceArmMySqlServerRead P N client) as rd eqn:Hrd.
  run_monad. rewrite Hsku. simpl. rewrite Hexp. simpl.
  assert ((if negb (GetBool (attrs d) "public_network_access_enabled")
           then PublicNetworkAccessEnumDisabled else PublicNetworkAccessEnumEnabled)
          = (if GetBool (attrs d) "public_network_access_enabled"
             then "Enabled" else "Disabled")) as ->
    by by destruct (GetBool (attrs d) "public_network_access_enabled").
  unfold tags_Expand.
  match goal with
  | |- context [Create client ?l ?a ?b ?c] =>
      destruct (Create client l a b c) as [future [e|]]
  end; simpl; [by exists []|].
  destruct (WaitForCompletionRef future); simpl; [by exists []|].
  match goal with
  | |- context [Get client ?l ?a ?b] =>
      destruct (Get client l a b) as [read [e|]]
  end; simpl; [eexists [_]; by rewrite <- app_assoc|].
  destruct (ID read); simpl; [|eexists [_]; by rewrite <- app_assoc].
  match goal with
  | |- context [rd ?w] =>
      destruct (rd w) as [st w'] eqn:Hr; subst rd;
      apply Read_extends_calls in Hr as [rest Hr]; simpl in Hr
  end.
  exists (CallGet (GetString (attrs d) "resource_group_name")
            (GetString (attrs d) "name") :: rest).
  destruct st as [[]| |]; simpl; rewrite Hr, <- !app_assoc; reflexivity.
Qed.

End MoreLifecycleProperties.

(** ** The update *)

Section UpdateProperties.

Variable P : string → ResourceID + string.
Variable N : string → string.

(** X16. [resourceArmMySqlServerUpdate] never reads before it writes: it
    ends before any call, on a SKU name that does not expand (with the
    error of the SKU) or on a storage profile that panics, or the first
    call it submits is the update, whose payload carries the expanded SKU
    and storage profile, the password, the version, the SSL enforcement,
    the public network access and the tags. *)
Theorem Update_submits_the_update_first client d log :
  let r := resourceArmMySqlServerUpdate P N client d log in
  let name := GetString (attrs d) "name" in
  let resourceGroup := GetString (attrs d) "resource_group_name" in
  match expandServerSkuName (GetString (attrs d) "sku_name"),
        expandMySQLStorageProfile (attrs d) with
  | (_, Some e), _ =>
      r = (UpdateReturned (Some (Shared (ErrExpandingSku name resourceGroup e))), d, log)
  | (_, None), Panic => r = (UpdatePanicked, d, log)
  | (sku, None), Ok sp =>
      ∃ rest,
        r.2 = (log ++
               CallUpdate resourceGroup name
                 {| ForUpdate_Properties := Some
                      {| Update_StorageProfile := Some sp;
                         Update_AdministratorLoginPassword :=
                           Some (GetString (attrs d) "administrator_login_password");
                         Update_Version := GetString (attrs d) "version";
                         Update_SslEnforcement := GetString (attrs d) "ssl_enforcement";
                         Update_PublicNetworkAccess :=
                           if GetBool (attrs d) "public_network_access_enabled"
                           then "Enabled" else "Disabled" |};
                    ForUpdate_Sku := sku;
                    ForUpdate_Tags := GetMap (attrs d) "tags" |} :: rest)%list
        ∧ ∀ c, c ∈ rest → ∃ g n, c = Plain (CallGet g n)
  end.
Proof.
  intros r name resourceGroup. subst r name resourceGroup.
  unfold resourceArmMySqlServerUpdate.
  destruct (expandServerSkuName (GetString (attrs d) "sku_name")) as [sku [e|]];
    [reflexivity|].
  destruct (expandMySQLStorageProfile (attrs d)) as [sp|]; [|reflexivity].
  assert ((if negb (GetBool (attrs d) "public_network_access_enabled")
           then PublicNetworkAccessEnumDisabled else PublicNetworkAccessEnumEnabled)
          = (if GetBool (attrs d) "public_network_access_enabled"
             then "Enabled" else "Disabled")) as ->
    by by destruct (GetBool (attrs d) "public_network_access_enabled").
  unfold tags_Expand.
  destruct (Update_ client log _ _ _) as [future [e|]]; simpl.
  { exists []. split; [done|]. by intros c ?%elem_of_nil. }
  destruct (WaitForCompletionRef future); simpl.
  { exists []. split; [done|]. by intros c ?%elem_of_nil. }
  destruct (Get_ client _ _ _) as [read [e|]]; simpl.
  { eexists [_]. split; [by rewrite <- app_assoc|].
    intros c ->%list_elem_of_singleton. by eauto. }
  destruct (ID read) as [id|]; simpl.
  2: { eexists [_]. split; [by rewrite <- app_assoc|].
       intros c ->%list_elem_of_singleton. by eauto. }
  match goal with
  | |- context [run ?m ?d0 ?l0] => destruct (run m d0 l0) as [[out d'] calls'] eqn:Hr
  end.
  simpl.
  assert (calls' = [] ∨ ∃ g n, calls' = [CallGet g n]) as Hcalls.
  { pose proof (Read_calls_shape P N _ _ _ _ _ _ Hr) as Hc.
    simpl in Hc. exact Hc. }
  eexists (_ :: _). split; [by rewrite <- !app_assoc|].
  intros c [->|Hc]%elem_of_cons; [by eauto|].
  destruct Hcalls as [->|(g & n & ->)]; simpl in Hc.
  - by apply elem_of_nil in Hc.
  - apply list_elem_of_singleton in Hc as ->. by eauto.
Qed.

(** X17. A failed update leaves the store as it was: with the error of the
    SKU name, of the update submission, of polling, of the re-read or of
    the missing ID, the store is the one the update was given. The store
    changes only after the update was submitted and polled without error
    and the re-read returned an ID. *)
Theorem Update_failure_keeps_the_store client d log :
  let r := resourceArmMySqlServerUpdate P N client d log in
  let name := GetString (attrs d) "name" in
  let resourceGroup := GetString (attrs d) "resource_group_name" in
  (∀ e, r.1.1 = UpdateReturned (Some e) → update_before_identity e = true → r.1.2 = d)
  ∧ (r.1.2 ≠ d →
       ∃ properties future read id,
         Update_ client log resourceGroup name properties = (future, None)
         ∧ WaitForCompletionRef future = None
         ∧ Get_ client (log ++ [CallUpdate resourceGroup name properties])
             resourceGroup name = (read, None)
         ∧ ID read = Some id).
Proof.
  intros r name resourceGroup. subst r name resourceGroup.
  unfold resourceArmMySqlServerUpdate.
  destruct (expandServerSkuName (GetString (attrs d) "sku_name")) as [sku [e|]];
    [by split|].
  destruct (expandMySQLStorageProfile (attrs d)) as [sp|]; [|by split].
  destruct (Update_ client log _ _ _) as [future [e|]] eqn:HU; simpl; [by split|].
  destruct (WaitForCompletionRef future) eqn:HW; simpl; [by split|].
  destruct (Get_ client _ _ _) as [read [e|]] eqn:HG; simpl; [by split|].
  destruct (ID read) as [id|] eqn:Hid; simpl; [|by split].
  match goal with
  | |- context [run ?m ?d0 ?l0] => destruct (run m d0 l0) as [[out d'] calls'] eqn:Hr
  end.
  apply Read_run_exits in Hr. simpl. split.
  - intros e He Hb. destruct out as [[e'|]|]; simpl in He; simplify_eq.
    simpl in Hb. congruence.
  - intros _. by eauto 10.
Qed.

(** X18. An update that went through refreshes the store from the remote,
    not from the configuration: when the update was submitted and polled
    without error, the re-read returned an ID that parses and the read that
    follows returned a complete payload, the update returns nil and the
    store holds that ID and what that payload decodes to. *)
Theorem Update_refreshes_from_the_remote client d log sku sp future read id rid
    resp props wire :
  let name := GetString (attrs d) "name" in
  let resourceGroup := GetString (attrs d) "resource_group_name" in
  let properties :=
    {| ForUpdate_Properties := Some
         {| Update_StorageProfile := Some sp;
            Update_AdministratorLoginPassword :=
              Some (GetString (attrs d) "administrator_login_password");
            Update_Version := GetString (attrs d) "version";
            Update_SslEnforcement := GetString (attrs d) "ssl_enforcement";
            Update_PublicNetworkAccess :=
              if negb (GetBool (attrs d) "public_network_access_enabled")
              then PublicNetworkAccessEnumDisabled
              else PublicNetworkAccessEnumEnabled |};
       ForUpdate_Sku := sku;
       ForUpdate_Tags := GetMap (attrs d) "tags" |} in
  let submitted := (log ++ [CallUpdate resourceGroup name properties;
                            Plain (CallGet resourceGroup name)])%list in
  expandServerSkuName (GetString (attrs d) "sku_name") = (sku, None) →
  expandMySQLStorageProfile (attrs d) = Ok sp →
  Update_ client log resourceGroup name properties = (future, None) →
  WaitForCompletionRef future = None →
  Get_ client (log ++ [CallUpdate resourceGroup name properties]) resourceGroup name
    = (read, None) →
  ID read = Some id →
  P id = inl rid →
  Get_ client submitted (ResourceGroup rid)
    (default EmptyString (Path rid !! "servers")) = (resp, None) →
  Server_Properties resp = Some props →
  Properties_StorageProfile props = Some wire →
  resourceArmMySqlServerUpdate P N client d log
  = (UpdateReturned None, decoded N rid resp props wire (SetId d id),
     (submitted ++ [Plain (CallGet (ResourceGroup rid)
                             (default EmptyString (Path rid !! "servers")))])%list).
Proof.
  intros name resourceGroup properties submitted Hsku Hsp HU HW HG Hid HP HG2
    Hprops Hwire.
  subst name resourceGroup properties submitted.
  unfold resourceArmMySqlServerUpdate. rewrite Hsku, Hsp.
  unfold tags_Expand. rewrite HU, HW, HG, Hid.
  rewrite (Read_leaves_decoded P N (after client _) (SetId d id) [] rid resp props wire);
    try assumption.
  - simpl. by rewrite <- !app_assoc.
  - simpl. rewrite app_nil_r, <- app_assoc. exact HG2.
Qed.

(** X19. For one store, the update sends what the create sends, less what
    cannot change: the payload of the update has the SKU, the tags, the
    storage profile, the password, the version, the SSL enforcement and the
    public network access of the payload of the create, and neither
    location nor login. *)
Theorem Update_payload_agrees_with_Create client d log sku create :
  let name := GetString (attrs d) "name" in
  let resourceGroup := GetString (attrs d) "resource_group_name" in
  expandServerSkuName (GetString (attrs d) "sku_name") = (sku, None) →
  (create_properties (N (GetString (attrs d) "location"))
     (if negb (GetBool (attrs d) "public_network_access_enabled")
      then PublicNetworkAccessEnumDisabled else PublicNetworkAccessEnumEnabled)
     sku {| data := d; calls := [] |}).1 = Next create →
  ∃ update rest created updated,
    (resourceArmMySqlServerUpdate P N client d log).2
      = (log ++ CallUpdate resourceGroup name update :: rest)%list
    ∧ ForCreate_Properties create = Some created
    ∧ ForUpdate_Properties update = Some updated
    ∧ ForUpdate_Sku update = ForCreate_Sku create
    ∧ ForUpdate_Tags update = ForCreate_Tags create
    ∧ Update_StorageProfile updated = Create_StorageProfile created
    ∧ Update_AdministratorLoginPassword updated
      = Create_AdministratorLoginPassword created
    ∧ Update_Version updated = Create_Version created
    ∧ Update_SslEnforcement updated = Create_SslEnforcement created
    ∧ Update_PublicNetworkAccess updated = Create_PublicNetworkAccess created.
Proof.
  intros name resourceGroup Hsku Hcreate. subst name resourceGroup.
  unfold create_properties in Hcreate.
  unfold bind, d_attrs, lift, pure in Hcreate. simpl in Hcreate.
  unfold resourceArmMySqlServerUpdate. rewrite Hsku.
  destruct (expandMySQLStorageProfile (attrs d)) as [sp|]; [|discriminate].
  simpl in Hcreate. injection Hcreate as <-.
  destruct (Update_ client log _ _ _) as [future [e|]]; simpl.
  { eexists _, [], _, _. by repeat split. }
  destruct (WaitForCompletionRef future); simpl.
  { eexists _, [], _, _. by repeat split. }
  destruct (Get_ client _ _ _) as [read [e|]]; simpl.
  { eexists _, [_], _, _. rewrite <- app_assoc. by repeat split. }
  destruct (ID read) as [id|]; simpl.
  2: { eexists _, [_], _, _. rewrite <- app_assoc. by repeat split. }
  match goal with
  | |- context [run ?m ?d0 ?l0] => destruct (run m d0 l0) as [[out d'] calls']
  end.
  simpl. eexists _, (_ :: _), _, _. rewrite <- !app_assoc. by repeat split.
Qed.

End UpdateProperties.

(** ** The Relay identifiers, again *)

Section RelayProperties.

Variable P : string → ResourceID + string.

Ltac look :=
  repeat first [ rewrite lookup_insert_eq | rewrite lookup_insert_ne by done
               | rewrite lookup_singleton_eq | rewrite lookup_singleton_ne by done
               | rewrite lookup_delete_eq | rewrite lookup_delete_ne by done
               | rewrite lookup_empty
               | match goal with H : _ !! _ = _ |- _ => rewrite H end ].

Lemma only_one_segment (m : gmap string string) a x :
  m !! a = Some x → (delete a m = ∅ ↔ m = {[ a := x ]}).
Proof.
  intros Ha. split.
  - intros Hd. apply map_eq. intros k.
    destruct (decide (k = a)) as [->|]; [by look|].
    assert (delete a m !! k = None) as Hl by by rewrite Hd.
    revert Hl. by look.
  - intros ->. apply map_eq. intros k.
    destruct (decide (k = a)) as [->|]; by look.
Qed.

Lemma only_two_segments (m : gmap string string) a b x y :
  a ≠ b → m !! a = Some x → m !! b = Some y →
  (delete b (delete a m) = ∅ ↔ m = {[ a := x; b := y ]}).
Proof.
  intros Hab Ha Hb. split.
  - intros Hd. apply map_eq. intros k.
    destruct (decide (k = a)) as [->|]; [by look|].
    destruct (decide (k = b)) as [->|]; [by look|].
    assert (delete b (delete a m) !! k = None) as Hl by by rewrite Hd.
    revert Hl. by look.
  - intros ->. apply map_eq. intros k.
    destruct (decide (k = a)) as [->|]; [by look|].
    destruct (decide (k = b)) as [->|]; by look.
Qed.

Lemma hybrid_connection_accepted input :
  (ParseHybridConnectionID P input).2 = None
  ↔ ∃ id name namespaceName,
      P input = inl id
      ∧ Path id = {[ "hybridConnections" := name; "namespaces" := namespaceName ]}.
Proof.
  unfold ParseHybridConnectionID, PopSegment, ValidateNoEmptySegments.
  destruct (P input) as [id|msg]; simpl.
  2: { split; [done|]. by intros (? & ? & ? & ? & ?). }
  destruct (Path id !! "hybridConnections") as [name|] eqn:Hh; simpl.
  2: { split; [done|]. intros (? & ? & ? & [= <-] & Hp).
       rewrite Hp in Hh. revert Hh. by look. }
  rewrite lookup_delete_ne by done.
  destruct (Path id !! "namespaces") as [namespaceName|] eqn:Hn; simpl.
  2: { split; [done|]. intros (? & ? & ? & [= <-] & Hp).
       rewrite Hp in Hn. revert Hn. by look. }
  assert ("hybridConnections" ≠ "namespaces") as Hne by done.
  pose proof (only_two_segments (Path id) "hybridConnections" "namespaces"
                name namespaceName Hne Hh Hn) as Htwo.
  case_bool_decide as Hd; simpl.
  - split; [|done]. intros _. exists id, name, namespaceName.
    split; [done|]. by apply Htwo.
  - split; [done|]. intros (? & n1 & n2 & [= <-] & Hp). destruct Hd.
    rewrite Hp in Hh, Hn. revert Hh Hn. look. intros [= ->] [= ->].
    by apply Htwo.
Qed.

Lemma namespace_accepted input :
  (ParseNamespaceID P input).2 = None
  ↔ ∃ id name, P input = inl id ∧ Path id = {[ "namespaces" := name ]}.
Proof.
  unfold ParseNamespaceID, PopSegment, ValidateNoEmptySegments.
  destruct (P input) as [id|msg]; simpl.
  2: { split; [done|]. by intros (? & ? & ? & ?). }
  destruct (Path id !! "namespaces") as [name|] eqn:Hn; simpl.
  2: { split; [done|]. intros (? & ? & [= <-] & Hp).
       rewrite Hp in Hn. revert Hn. by look. }
  pose proof (only_one_segment (Path id) "namespaces" name Hn) as Hone.
  case_bool_decide as Hd; simpl.
  - split; [|done]. intros _. exists id, name. split; [done|]. by apply Hone.
  - split; [done|]. intros (? & n1 & [= <-] & Hp). destruct Hd.
    rewrite Hp in Hn. revert Hn. look. intros [= ->]. by apply Hone.
Qed.

(** X20. The two kinds of Relay identifier exclude each other: an input
    that parses as a hybrid connection is rejected as a namespace for its
    remaining segment, and an input that parses as a namespace is rejected
    as a hybrid connection for the missing [hybridConnections] segment. A
    hybrid connection is accepted exactly when the path of the parsed ID
    consists of its two segments, a namespace when it consists of its one. *)
Theorem Relay_ids_exclude_each_other input :
  let hc := ParseHybridConnectionID P input in
  let ns := ParseNamespaceID P input in
  (hc.2 = None → ns = (None, Some (ErrMoreSegments input)))
  ∧ (ns.2 = None → hc = (None, Some (ErrMissingElement "hybridConnections")))
  ∧ (hc.2 = None ↔ ∃ id name namespaceName,
       P input = inl id
       ∧ Path id = {[ "hybridConnections" := name; "namespaces" := namespaceName ]})
  ∧ (ns.2 = None ↔ ∃ id name,
       P input = inl id ∧ Path id = {[ "namespaces" := name ]}).
Proof.
  intros hc ns. subst hc ns.
  split; [|split; [|split]].
  - intros (id & name & namespaceName & HP & Hp)%hybrid_connection_accepted.
    unfold ParseNamespaceID, PopSegment, ValidateNoEmptySegments.
    rewrite HP, Hp. simpl. look. simpl. by case_bool_decide.
  - intros (id & name & HP & Hp)%namespace_accepted.
    unfold ParseHybridConnectionID, PopSegment. rewrite HP, Hp. simpl. by look.
  - apply hybrid_connection_accepted.
  - apply namespace_accepted.
Qed.

Lemma Validate_string s k :
  ValidateHybridConnectionID P (Some (VString s)) k
  = ([], match (ParseHybridConnectionID P s).2 with
         | Some e => [ErrCanNotParse s e]
         | None => []
         end)
  ∧ ValidateNamespaceID P (Some (VString s)) k
    = ([], match (ParseNamespaceID P s).2 with
           | Some e => [ErrCanNotParse k e]
           | None => []
           end).
Proof.
  unfold ValidateHybridConnectionID, ValidateNamespaceID. simpl.
  by destruct (ParseHybridConnectionID P s) as [? [?|]],
    (ParseNamespaceID P s) as [? [?|]].
Qed.

Lemma Validate_other i k :
  (∀ s, i ≠ Some (VString s)) →
  ValidateHybridConnectionID P i k
  = ([], ErrExpectedString k
         :: (ValidateHybridConnectionID P (Some (VString EmptyString)) k).2)
  ∧ ValidateNamespaceID P i k
    = ([], ErrExpectedString k
           :: (ValidateNamespaceID P (Some (VString EmptyString)) k).2).
Proof.
  intros Hi.
  assert (string_of_interface i = (EmptyString, false)) as Hs.
  { destruct i as [[| |s|]|]; try reflexivity. by destruct (Hi s). }
  unfold ValidateHybridConnectionID, ValidateNamespaceID. rewrite Hs. simpl.
  by destruct (ParseHybridConnectionID P EmptyString) as [? [?|]],
    (ParseNamespaceID P EmptyString) as [? [?|]].
Qed.

(** X21. The validation functions return no warning, and no error exactly
    when the value is a string that parses. A value that is not a string
    gets the type error, and is then validated as the empty string. A
    string that does not parse gets one error, which shows the string for
    a hybrid connection and the key for a namespace. *)
Theorem Validate_relay_ids i k :
  let hc := ValidateHybridConnectionID P i k in
  let ns := ValidateNamespaceID P i k in
  hc.1 = [] ∧ ns.1 = []
  ∧ (hc.2 = [] ↔ ∃ s, i = Some (VString s) ∧ (ParseHybridConnectionID P s).2 = None)
  ∧ (ns.2 = [] ↔ ∃ s, i = Some (VString s) ∧ (ParseNamespaceID P s).2 = None)
  ∧ ((∀ s, i ≠ Some (VString s)) →
       hc.2 = ErrExpectedString k
              :: (ValidateHybridConnectionID P (Some (VString EmptyString)) k).2
       ∧ ns.2 = ErrExpectedString k
                :: (ValidateNamespaceID P (Some (VString EmptyString)) k).2)
  ∧ (∀ s, i = Some (VString s) →
       (∀ e, (ParseHybridConnectionID P s).2 = Some e → hc.2 = [ErrCanNotParse s e])
       ∧ (∀ e, (ParseNamespaceID P s).2 = Some e → ns.2 = [ErrCanNotParse k e])).
Proof.
  intros hc ns. subst hc ns.
  assert ((∃ s, i = Some (VString s)) ∨ ∀ s, i ≠ Some (VString s)) as [[s ->]|Hi].
  { destruct i as [[| |s|]|]; by eauto. }
  - destruct (Validate_string s k) as [-> ->]. simpl.
    split; [done|]. split; [done|]. split; [|split; [|split]].
    + split.
      * destruct (ParseHybridConnectionID P s).2 eqn:?; [done|]. by eauto.
      * intros (s' & [= <-] & ->). done.
    + split.
      * destruct (ParseNamespaceID P s).2 eqn:?; [done|]. by eauto.
      * intros (s' & [= <-] & ->). done.
    + intros Hs. by destruct (Hs s).
    + intros s' [= <-]. split; by intros e ->.
  - destruct (Validate_other i k Hi) as [-> ->]. simpl.
    split; [done|]. split; [done|]. split; [|split; [|split]].
    + split; [done|]. intros (s & -> & _). by destruct (Hi s).
    + split; [done|]. intros (s & -> & _). by destruct (Hi s).
    + done.
    + intros s ->. by destruct (Hi s).
Qed.

End RelayProperties.

(** ** The calls of a create *)

Section CreateCalls.

Variable P : string → ResourceID + string.
Variable N : string → string.

Lemma Read_step_calls client w st w' :
  resourceArmMySqlServerRead P N client w = (st, w') →
  calls w' = calls w ∨ ∃ g n, calls w' = (calls w ++ [CallGet g n])%list.
Proof.
  unfold resourceArmMySqlServerRead.
  unfold run, skip, tags_FlattenAndSet, d_SetList, d_SetId, d_Set,
    d_SetStringPtr, d_attrs, d_Id, d_IsNewResource, d_update,
    client_Get, lift, deref, bind, pure, return_.
  simpl. intros H. repeat case_match; simplify_eq; simpl; by eauto.
Qed.

(** X22. The calls of a create: whatever the remote answers,
    [resourceArmMySqlServerCreate] adds to the calls at most one read for
    the presence check, then at most one create, then at most two reads,
    and never a delete. *)
Theorem Create_calls client imp d log :
  ∃ rest,
    (run (resourceArmMySqlServerCreate P N imp client) d log).2 = (log ++ rest)%list
    ∧ In (List.map (fun c => match c with
                             | CallGet _ _ => "read"
                             | CallCreate _ _ _ => "create"
                             | CallDelete _ _ => "delete"
                             end) rest)
         [ []; ["read"]; ["create"]; ["read"; "create"];
           ["create"; "read"]; ["read"; "create"; "read"];
           ["create"; "read"; "read"]; ["read"; "create"; "read"; "read"] ]
    ∧ (imp && IsNewResource d = false → head rest ≠ Some (CallGet
         (GetString (attrs d) "resource_group_name") (GetString (attrs d) "name"))).
Proof.
  unfold run.
  destruct (resourceArmMySqlServerCreate P N imp client {| data := d; calls := log |})
    as [st w'] eqn:H.
  cut (∃ rest, calls w' = (log ++ rest)%list
    ∧ In (List.map (fun c => match c with
                             | CallGet _ _ => "read"
                             | CallCreate _ _ _ => "create"
                             | CallDelete _ _ => "delete"
                             end) rest)
         [ []; ["read"]; ["create"]; ["read"; "create"];
           ["create"; "read"]; ["read"; "create"; "read"];
           ["create"; "read"; "read"]; ["read"; "create"; "read"; "read"] ]
    ∧ (imp && IsNewResource d = false → head rest ≠ Some (CallGet
         (GetString (attrs d) "resource_group_name") (GetString (attrs d) "name")))).
  { intros (rest & ? & ?). exists rest. by destruct st as [[]| |]. }
  revert H.
  unfold resourceArmMySqlServerCreate, create_properties.
  unfold bind at 1 2 3. unfold d_attrs at 1, d_IsNewResource. cbv beta iota zeta.
  cbn [data calls].
  destruct ((if (imp && IsNewResource d)%bool
             then import_check client (GetString (attrs d) "resource_group_name")
                    (GetString (attrs d) "name") else skip)
              {| data := d; calls := log |})
    as [st1 w1] eqn:Himp.
  destruct (imp && IsNewResource d)%bool eqn:Hflag.
  - apply import_check_cases in Himp as (Hd & Hl & _). simpl in Hd, Hl.
    destruct w1 as [d1 l1]. simpl in Hd, Hl. subst d1 l1.
    destruct st1 as [[]|e1|]; [|intros [= <- <-]; eexists [_]; simpl; by auto
                              |intros [= <- <-]; eexists [_]; simpl; by auto].
    remember (resourceArmMySqlServerRead P N client) as rd eqn:Hrd.
    unfold skip, tags_FlattenAndSet, d_SetList, d_SetId, d_Set,
      d_SetStringPtr, d_attrs, d_Id, d_IsNewResource, d_update,
      client_Get, client_Create, lift, deref, bind, pure, return_.
    simpl. intros H.
    repeat case_match; simplify_eq; simpl;
      try (match goal with
           | H : resourceArmMySqlServerRead _ _ _ _ = _ |- _ =>
               apply Read_step_calls in H as [H|(g & n & H)]; simpl in H; rewrite H
           end);
      rewrite <- ?app_assoc; simpl;
      (eexists; split; [reflexivity|]; simpl; split; [tauto|done]).
  - unfold skip, pure in Himp. injection Himp as <- <-.
    remember (resourceArmMySqlServerRead P N client) as rd eqn:Hrd.
    unfold skip, tags_FlattenAndSet, d_SetList, d_SetId, d_Set,
      d_SetStringPtr, d_attrs, d_Id, d_IsNewResource, d_update,
      client_Get, client_Create, lift, deref, bind, pure, return_.
    simpl. intros H.
    repeat case_match; simplify_eq; simpl;
      try (match goal with
           | H : resourceArmMySqlServerRead _ _ _ _ = _ |- _ =>
               apply Read_step_calls in H as [H|(g & n & H)]; simpl in H; rewrite H
           end);
      rewrite <- ?app_assoc; simpl;
      first [ exists []; rewrite app_nil_r; split; [reflexivity|]; simpl;
              split; [tauto|done]
            | eexists; split; [reflexivity|]; simpl; split; [tauto|done] ].
Qed.

End CreateCalls.

(** ** The further properties on the sample remotes *)

Lemma schema_sku_names_expand_witness :
  ∃ tier family capacity,
    expandServerSkuName "MO_Gen5_32"
    = (Some {| Sku_Name := Some "MO_Gen5_32"; Sku_Tier := tier;
               Sku_Capacity := Some capacity; Sku_Family := Some family |}, None)
    ∧ In (HasPrefix "MO_Gen5_32" "B_", HasPrefix "MO_Gen5_32" "GP_",
          HasPrefix "MO_Gen5_32" "MO_", tier)
         [ (true, false, false, Basic); (false, true, false, GeneralPurpose);
           (false, false, true, MemoryOptimized) ]
    ∧ In family ["Gen4"; "Gen5"]
    ∧ 1 <= capacity <= 64
    ∧ Atoi (default EmptyString (last (Split "MO_Gen5_32" "_"))) = Some capacity.
Proof.
  apply (schema_sku_names_expand "MO_Gen5_32"). vm_compute. reflexivity.
Defined.

Lemma CustomizeDiff_agrees_with_tier_witness :
  CustomizeDiff (Sample.config "B_Gen5_2" 2097152) = Some ErrBasicTierStorage.
Proof.
  apply (proj1 (CustomizeDiff_agrees_with_tier (Sample.config "B_Gen5_2" 2097152)
                  {| Sku_Name := Some "B_Gen5_2"; Sku_Tier := Basic;
                     Sku_Capacity := Some 2; Sku_Family := Some "Gen5" |}
                  ltac:(vm_compute; reflexivity))).
  split; vm_compute; reflexivity.
Defined.

Lemma expandMySQLStorageProfile_defined_witness :
  expandMySQLStorageProfile ∅ = Panic.
Proof.
  apply (proj1 (proj2 (expandMySQLStorageProfile_defined ∅))).
  vm_compute. reflexivity.
Defined.

Lemma expandMySQLStorageProfile_wraps_witness :
  expandMySQLStorageProfile
    (<["storage_profile" :=
         AList [<["storage_mb" := VInt (5120 + 1 * 2 ^ 32)]>
                  (<["storage_mb" := VInt 5120]> Sample.storage_profile)]]>
       (Sample.config "GP_Gen5_4" 5120))
  = Ok SampleUpdate.initial_storage.
Proof.
  assert (expandMySQLStorageProfile (Sample.config "GP_Gen5_4" 5120)
          = Ok SampleUpdate.initial_storage) as H by (vm_compute; reflexivity).
  apply (proj2 (expandMySQLStorageProfile_wraps _ _ H)
           (<["storage_mb" := VInt 5120]> Sample.storage_profile) [] 5120 1);
    vm_compute; reflexivity.
Defined.

Lemma expand_after_flatten_witness :
  ∃ flat,
    flattenMySQLStorageProfile (Some SampleUpdate.initial_storage) = Ok flat
    ∧ expandMySQLStorageProfile
        (attrs (SetList Sample.known_resource "storage_profile" flat))
      = Ok SampleUpdate.initial_storage.
Proof.
  apply (expand_after_flatten Sample.known_resource SampleUpdate.initial_storage 5120 7);
    [reflexivity | reflexivity | unfold in_int32; lia | unfold in_int32; lia].
Defined.

Lemma unparsable_ID_stops_Read_and_Delete_witness :
  run (resourceArmMySqlServerRead Sample.parse Sample.normalize Sample.remote)
    Sample.new_resource []
    = (Returned (Some (ParseFailure "No subscription ID found")), Sample.new_resource, [])
  ∧ run (resourceArmMySqlServerDelete Sample.parse Sample.remote) Sample.new_resource []
    = (Returned (Some (ParseFailure "No subscription ID found")), Sample.new_resource, []).
Proof.
  apply (unparsable_ID_stops_Read_and_Delete Sample.parse Sample.normalize).
  vm_compute. reflexivity.
Defined.

Lemma Read_writes_only_what_it_decodes_witness :
  attrs (run (resourceArmMySqlServerRead Sample.parse Sample.normalize Sample.remote)
           Sample.known_resource [Sample.create_call]).1.2
    !! "administrator_login_password"
  = Some (AString "secret").
Proof.
  rewrite (proj1 (Read_writes_only_what_it_decodes Sample.parse Sample.normalize
                    Sample.remote Sample.known_resource [Sample.create_call])
             "administrator_login_password").
  - vm_compute. reflexivity.
  - unfold read_attributes. simpl. intuition discriminate.
Defined.

Lemma Read_decodes_witness :
  attrs (run (resourceArmMySqlServerRead Sample.parse Sample.normalize Sample.remote)
           Sample.known_resource [Sample.create_call]).1.2 !! "location"
  = Some (AString "westeurope").
Proof.
  assert (Sample.parse (Id Sample.known_resource) = inl Sample.server_rid) as HP
    by (vm_compute; reflexivity).
  destruct (Read_decodes Sample.parse Sample.normalize Sample.remote
              Sample.known_resource [Sample.create_call] Sample.server_rid
              Sample.the_server
              {| AdministratorLogin := Some "dbadmin"; Version := "5.7";
                 SslEnforcement := "Enabled";
                 FullyQualifiedDomainName := Some "db1.mysql.database.azure.com";
                 Properties_StorageProfile := Some SampleUpdate.initial_storage;
                 PublicNetworkAccess := EmptyString |}
              SampleUpdate.initial_storage HP
              ltac:(vm_compute; reflexivity) ltac:(vm_compute; reflexivity)
              ltac:(vm_compute; reflexivity))
    as (_ & _ & H & _).
  rewrite H. vm_compute. reflexivity.
Defined.

Lemma Read_is_stable_witness :
  let first := run (resourceArmMySqlServerRead Sample.parse Sample.normalize
                      Sample.remote) Sample.known_resource [Sample.create_call] in
  let second := run (resourceArmMySqlServerRead Sample.parse Sample.normalize
                       Sample.remote) first.1.2 first.2 in
  second.1.1 = Returned None ∧ second.1.2 = first.1.2.
Proof.
  assert (Sample.parse (Id Sample.known_resource) = inl Sample.server_rid) as HP
    by (vm_compute; reflexivity).
  apply (Read_is_stable Sample.parse Sample.normalize Sample.remote
           Sample.known_resource [Sample.create_call] Sample.server_rid
           Sample.the_server HP);
    vm_compute; reflexivity.
Defined.


Lemma Create_import_check_passes_witness :
  run (resourceArmMySqlServerCreate Sample.parse Sample.normalize true Sample.remote)
    Sample.new_resource []
  = run (resourceArmMySqlServerCreate Sample.parse Sample.normalize false Sample.remote)
      Sample.new_resource [CallGet "rg1" "db1"].
Proof.
  apply (proj2 (Create_import_check_passes Sample.parse Sample.normalize Sample.remote
                  Sample.new_resource [])
           (Sample.no_server 404) (Some (RemoteFailure "ResourceNotFound")));
    [reflexivity | vm_compute; reflexivity | right; reflexivity | left; reflexivity].
Defined.

Lemma validated_configuration_is_submitted_witness :
  ∃ sku sp rest,
    expandServerSkuName "GP_Gen5_4" = (Some sku, None)
    ∧ expandMySQLStorageProfile (attrs Sample.new_resource) = Ok sp
    ∧ (run (resourceArmMySqlServerCreate Sample.parse Sample.normalize false
              Sample.remote) Sample.new_resource []).2
      = CallCreate "rg1" "db1"
          {| ForCreate_Location := Some "westeurope";
             ForCreate_Properties := Some
               {| Create_AdministratorLogin := Some "dbadmin";
                  Create_AdministratorLoginPassword := Some "secret";
                  Create_Version := "5.7";
                  Create_SslEnforcement := "Enabled";
                  Create_StorageProfile := Some sp;
                  Create_CreateMode := "Default";
                  Create_PublicNetworkAccess := "Enabled" |};
             ForCreate_Sku := Some sku;
             ForCreate_Tags := ∅ |} :: rest.
Proof.
  apply (validated_configuration_is_submitted Sample.parse Sample.normalize
           Sample.remote Sample.new_resource []).
  vm_compute. reflexivity.
Defined.

Lemma Create_ends_with_Read_witness :
  run (resourceArmMySqlServerCreate Sample.parse Sample.normalize false Sample.remote)
    Sample.new_resource []
  = run (resourceArmMySqlServerRead Sample.parse Sample.normalize Sample.remote)
      (SetId Sample.new_resource Sample.server_id)
      [CallCreate "rg1" "db1"
         {| ForCreate_Location := Some "westeurope";
            ForCreate_Properties := Some
              {| Create_AdministratorLogin := Some "dbadmin";
                 Create_AdministratorLoginPassword := Some "secret";
                 Create_Version := "5.7";
                 Create_SslEnforcement := "Enabled";
                 Create_StorageProfile := Some SampleUpdate.initial_storage;
                 Create_CreateMode := "Default";
                 Create_PublicNetworkAccess := "Enabled" |};
            ForCreate_Sku := Server_Sku Sample.the_server;
            ForCreate_Tags := ∅ |};
       CallGet "rg1" "db1"].
Proof.
  apply (Create_ends_with_Read Sample.parse Sample.normalize Sample.remote
           Sample.new_resource [] (Server_Sku Sample.the_server) _ Sample.accepted
           Sample.the_server Sample.server_id);
    vm_compute; reflexivity.
Defined.

Lemma Update_submits_the_update_first_witness :
  resourceArmMySqlServerUpdate Sample.parse Sample.normalize SampleUpdate.remote
    {| Id := Sample.server_id; IsNewResource := false;
       attrs := Sample.config "GP_4" 5120 |} []
  = (UpdateReturned (Some (Shared (ErrExpandingSku "db1" "rg1" (ErrSkuParts "GP_4" 2)))),
     {| Id := Sample.server_id; IsNewResource := false;
        attrs := Sample.config "GP_4" 5120 |}, []).
Proof.
  exact (Update_submits_the_update_first Sample.parse Sample.normalize
           SampleUpdate.remote
           {| Id := Sample.server_id; IsNewResource := false;
              attrs := Sample.config "GP_4" 5120 |} []).
Defined.

Lemma Update_failure_keeps_the_store_witness :
  (resourceArmMySqlServerUpdate Sample.parse Sample.normalize SampleUpdate.refusing
     SampleUpdate.resized []).1.2 = SampleUpdate.resized.
Proof.
  apply (proj1 (Update_failure_keeps_the_store Sample.parse Sample.normalize
                  SampleUpdate.refusing SampleUpdate.resized [])
           (ErrUpdating "db1" "rg1" (RemoteFailure "Conflict")));
    vm_compute; reflexivity.
Defined.

Lemma Update_refreshes_from_the_remote_witness :
  let r := resourceArmMySqlServerUpdate Sample.parse Sample.normalize
             SampleUpdate.remote SampleUpdate.resized [] in
  r.1.1 = UpdateReturned None
  ∧ GetNestedInt (attrs r.1.2) "storage_profile" 0 "storage_mb" = 10240.
Proof.
  set (sp := {| BackupRetentionDays := Some 7; GeoRedundantBackup := "Disabled";
                StorageMB := Some 10240; StorageAutogrow := "Enabled" |}).
  set (props := {| AdministratorLogin := Some "dbadmin"; Version := "5.7";
                   SslEnforcement := "Enabled";
                   FullyQualifiedDomainName := Some "db1.mysql.database.azure.com";
                   Properties_StorageProfile := Some sp;
                   PublicNetworkAccess := "Enabled" |}).
  rewrite (Update_refreshes_from_the_remote Sample.parse Sample.normalize
             SampleUpdate.remote SampleUpdate.resized []
             (Server_Sku Sample.the_server) sp Sample.accepted
             {| Response := Some 200; Server_Sku := Server_Sku Sample.the_server;
                Server_Properties := Some props; Server_Tags := ∅;
                Location := Some "West Europe"; ID := Some Sample.server_id;
                Name := Some "db1" |}
             Sample.server_id Sample.server_rid
             {| Response := Some 200; Server_Sku := Server_Sku Sample.the_server;
                Server_Properties := Some props; Server_Tags := ∅;
                Location := Some "West Europe"; ID := Some Sample.server_id;
                Name := Some "db1" |}
             props sp);
    try (vm_compute; reflexivity).
  split; vm_compute; reflexivity.
Defined.

Lemma Update_payload_agrees_with_Create_witness :
  ∃ update rest,
    (resourceArmMySqlServerUpdate Sample.parse Sample.normalize SampleUpdate.remote
       SampleUpdate.resized []).2 = CallUpdate "rg1" "db1" update :: rest
    ∧ ForUpdate_Sku update = Server_Sku Sample.the_server.
Proof.
  destruct (Update_payload_agrees_with_Create Sample.parse Sample.normalize
              SampleUpdate.remote SampleUpdate.resized []
              (Server_Sku Sample.the_server)
              {| ForCreate_Location := Some "westeurope";
                 ForCreate_Properties := Some
                   {| Create_AdministratorLogin := Some "dbadmin";
                      Create_AdministratorLoginPassword := Some "secret";
                      Create_Version := "5.7";
                      Create_SslEnforcement := "Enabled";
                      Create_StorageProfile := Some
                        {| BackupRetentionDays := Some 7;
                           GeoRedundantBackup := "Disabled";
                           StorageMB := Some 10240; StorageAutogrow := "Enabled" |};
                      Create_CreateMode := "Default";
                      Create_PublicNetworkAccess := "Enabled" |};
                 ForCreate_Sku := Server_Sku Sample.the_server;
                 ForCreate_Tags := ∅ |}
              ltac:(vm_compute; reflexivity) ltac:(vm_compute; reflexivity))
    as (update & rest & created & updated & Hcalls & _ & _ & Hsku & _).
  exists update, rest. split; [exact Hcalls | exact Hsku].
Defined.

Lemma Relay_ids_exclude_each_other_witness :
  ParseNamespaceID Sample.parse Sample.hybrid_connection_id
  = (None, Some (ErrMoreSegments Sample.hybrid_connection_id)).
Proof.
  apply (proj1 (Relay_ids_exclude_each_other Sample.parse Sample.hybrid_connection_id)).
  vm_compute. reflexivity.
Defined.

Lemma Validate_relay_ids_witness :
  (ValidateHybridConnectionID Sample.parse (Some (VInt 3)) "relay_id").2
  = ErrExpectedString "relay_id"
    :: (ValidateHybridConnectionID Sample.parse (Some (VString EmptyString)) "relay_id").2.
Proof.
  destruct (Validate_relay_ids Sample.parse (Some (VInt 3)) "relay_id")
    as (_ & _ & _ & _ & H & _).
  apply H. intros s. discriminate.
Defined.

Lemma Create_calls_witness :
  ∃ rest,
    (run (resourceArmMySqlServerCreate Sample.parse Sample.normalize false Sample.remote)
       Sample.new_resource []).2 = rest
    ∧ head rest ≠ Some (CallGet "rg1" "db1").
Proof.
  destruct (Create_calls Sample.parse Sample.normalize Sample.remote false
              Sample.new_resource []) as (rest & Hcalls & _ & Hhead).
  exists rest. split; [exact Hcalls|]. apply Hhead. reflexivity.
Defined.
